(** * Memory Leak Detector GUI: orchestration and report parsing

    A shallow embedding of [valgrindGUI_windows.py] (class [MemoryLeakGUI]):
    the tool probes, the compile and analysis cascades, the Windows-to-WSL
    path translation and the parser of the checker's diagnostic stream.

    A Python [str] is a [string] of 8-bit characters; the widgets are fields
    of a record that every method threads through; [subprocess.run],
    [os.path.exists] and [platform.system] are answers of the outside world,
    taken as parameters. *)

From Stdlib Require Import String Ascii List ZArith Bool Lia.
From Stdlib Require Import DecimalString.
Import ListNotations.

Local Open Scope list_scope.
Local Open Scope string_scope.

(** [l +++ m] appends lists where [++] is taken by strings. *)
Infix "+++" := List.app (right associativity, at level 60).

(** ** Python string primitives *)

Module PyStr.

(** [s.startswith(p)] *)
Fixpoint startswith (p s : string) : bool :=
  match p, s with
  | EmptyString, _ => true
  | String a p', String b s' => if Ascii.eqb a b then startswith p' s' else false
  | String _ _, EmptyString => false
  end.

(** [needle in hay] *)
Fixpoint str_in (needle hay : string) : bool :=
  if startswith needle hay then true
  else match hay with
       | EmptyString => false
       | String _ hay' => str_in needle hay'
       end.

(** [s[n:]] for [n >= 0] *)
Fixpoint drop (n : nat) (s : string) : string :=
  match n, s with
  | O, _ => s
  | S n', String _ s' => drop n' s'
  | S _, EmptyString => EmptyString
  end.

(** [s[:n]] for [n >= 0] *)
Fixpoint take (n : nat) (s : string) : string :=
  match n, s with
  | O, _ => EmptyString
  | S n', String c s' => String c (take n' s')
  | S _, EmptyString => EmptyString
  end.

(** [s[:-2]]: all but the last two characters, empty when there are fewer *)
Definition slice_to_minus2 (s : string) : string :=
  take (String.length s - 2) s.

(** [s.endswith(p)] *)
Definition endswith (p s : string) : bool :=
  (String.length p <=? String.length s)%nat &&
  String.eqb (drop (String.length s - String.length p) s) p.

(** [s.replace(a, b)] for one-character [a] and [b] *)
Fixpoint replace (a b : ascii) (s : string) : string :=
  match s with
  | EmptyString => EmptyString
  | String c s' => String (if Ascii.eqb c a then b else c) (replace a b s')
  end.

(** [c.lower()] on the characters 0..255: the letters A-Z and the
    upper-case letters of the Latin-1 block move up by 32. *)
Definition lower (c : ascii) : ascii :=
  let n := nat_of_ascii c in
  if ((65 <=? n) && (n <=? 90))%nat
     || ((192 <=? n) && (n <=? 222) && negb (n =? 215))%nat
  then ascii_of_nat (n + 32) else c.

(** [c.isspace()] on the characters 0..255 *)
Definition isspace (c : ascii) : bool :=
  let n := nat_of_ascii c in
  ((9 <=? n) && (n <=? 13))%nat || ((28 <=? n) && (n <=? 32))%nat
  || (n =? 133)%nat || (n =? 160)%nat.

(** [s.lstrip()] *)
Fixpoint lstrip (s : string) : string :=
  match s with
  | EmptyString => EmptyString
  | String c s' => if isspace c then lstrip s' else s
  end.

(** [s.rstrip()] *)
Fixpoint rstrip (s : string) : string :=
  match s with
  | EmptyString => EmptyString
  | String c s' =>
      match rstrip s' with
      | EmptyString => if isspace c then EmptyString else String c EmptyString
      | r => String c r
      end
  end.

(** [s.strip()] *)
Definition strip (s : string) : string := rstrip (lstrip s).

(** [s.split(sep)] for a one-character separator: never empty *)
Fixpoint split (sep : ascii) (s : string) : list string :=
  match s with
  | EmptyString => [EmptyString]
  | String c s' =>
      if Ascii.eqb c sep then EmptyString :: split sep s'
      else match split sep s' with
           | [] => [String c EmptyString]
           | p :: ps => String c p :: ps
           end
  end.

(** [str(n)] for an integer *)
Definition str_of_int (z : Z) : string :=
  NilZero.string_of_int (Z.to_int z).

(** [c * n]: a character repeated *)
Fixpoint repeat_char (c : ascii) (n : nat) : string :=
  match n with
  | O => EmptyString
  | S n' => String c (repeat_char c n')
  end.

(** [bool(s)]: a string is true when it is not empty *)
Definition truthy (s : string) : bool :=
  match s with EmptyString => false | _ => true end.

End PyStr.

(** ** The two shapes of regular expression the parser uses

    Every pattern of [parse_valgrind_output] is [<literal> .* <literal>]
    with no metacharacter in either literal.  [re.search] scans start
    positions from the left; at the first one where the leading literal
    matches, [.*] takes as many characters other than newline as it can and
    gives them back one at a time until the trailing literal matches. *)

Module Re.

Definition newline : ascii := "010"%char.

(** [.*suf] matched at the head of [s]: the text matched, if any *)
Fixpoint dotstar_then (suf s : string) : option string :=
  match s with
  | EmptyString => if PyStr.startswith suf s then Some suf else None
  | String c s' =>
      if Ascii.eqb c newline
      then (if PyStr.startswith suf s then Some suf else None)
      else match dotstar_then suf s' with
           | Some m => Some (String c m)
           | None => if PyStr.startswith suf s then Some suf else None
           end
  end.

(** [pre.*suf] matched at the head of [s] *)
Definition match_here (pre suf s : string) : option string :=
  if PyStr.startswith pre s
  then match dotstar_then suf (PyStr.drop (String.length pre) s) with
       | Some m => Some (pre ++ m)
       | None => None
       end
  else None.

(** [re.search(pre + ".*" + suf, text)]: [Some] of [match.group()] *)
Fixpoint search (pre suf text : string) : option string :=
  match match_here pre suf text with
  | Some m => Some m
  | None => match text with
            | EmptyString => None
            | String _ text' => search pre suf text'
            end
  end.

End Re.

(** ** The outside world and the state of the application *)

(** One call of [subprocess.run(args, capture_output=True, text=True,
    shell=..., timeout=...)] *)
Record invocation := {
  args : list string;
  shell : bool;
  timeout : Z
}.

(** A [subprocess.CompletedProcess] *)
Record CompletedProcess := {
  returncode : Z;
  stdout : string;
  stderr : string
}.

(** The exceptions the methods tell apart; each carries its [str(e)].
    All of them are subclasses of [Exception]. *)
Inductive exn :=
| FileNotFoundError (msg : string)
| TimeoutExpired (msg : string)
| IndexError (msg : string)
| OtherException (msg : string).

Definition str_of_exn (e : exn) : string :=
  match e with
  | FileNotFoundError m | TimeoutExpired m | IndexError m | OtherException m => m
  end.

(** What one [subprocess.run] call does *)
Inductive run_result :=
| Completed (c : CompletedProcess)
| Raises (e : exn).

Inductive box_kind := showerror | showinfo.

(** One [messagebox] call *)
Record dialog := {
  kind : box_kind;
  title : string;
  message : string
}.

(** The fields of [MemoryLeakGUI] that the methods read and write.
    [text_area] holds the chunks inserted at [tk.END], in order;
    [tools_status] is the list object [check_tools] creates and hands to
    every check; [dialogs] and [spawned] record the [messagebox] and
    [subprocess.run] calls made so far. *)
Record GUI := {
  process_entry : string;
  text_area : list string;
  status_var : string;
  wsl_available : bool;
  wsl_gcc_available : bool;
  wsl_valgrind_available : bool;
  tools_status : list string;
  dialogs : list dialog;
  spawned : list invocation
}.

Definition set_process_entry (v : string) (g : GUI) : GUI :=
  {| process_entry := v; text_area := text_area g; status_var := status_var g;
     wsl_available := wsl_available g; wsl_gcc_available := wsl_gcc_available g;
     wsl_valgrind_available := wsl_valgrind_available g;
     tools_status := tools_status g; dialogs := dialogs g; spawned := spawned g |}.

Definition set_text_area (v : list string) (g : GUI) : GUI :=
  {| process_entry := process_entry g; text_area := v; status_var := status_var g;
     wsl_available := wsl_available g; wsl_gcc_available := wsl_gcc_available g;
     wsl_valgrind_available := wsl_valgrind_available g;
     tools_status := tools_status g; dialogs := dialogs g; spawned := spawned g |}.

Definition set_status_var (v : string) (g : GUI) : GUI :=
  {| process_entry := process_entry g; text_area := text_area g; status_var := v;
     wsl_available := wsl_available g; wsl_gcc_available := wsl_gcc_available g;
     wsl_valgrind_available := wsl_valgrind_available g;
     tools_status := tools_status g; dialogs := dialogs g; spawned := spawned g |}.

Definition set_wsl_available (v : bool) (g : GUI) : GUI :=
  {| process_entry := process_entry g; text_area := text_area g;
     status_var := status_var g;
     wsl_available := v; wsl_gcc_available := wsl_gcc_available g;
     wsl_valgrind_available := wsl_valgrind_available g;
     tools_status := tools_status g; dialogs := dialogs g; spawned := spawned g |}.

Definition set_wsl_gcc_available (v : bool) (g : GUI) : GUI :=
  {| process_entry := process_entry g; text_area := text_area g;
     status_var := status_var g;
     wsl_available := wsl_available g; wsl_gcc_available := v;
     wsl_valgrind_available := wsl_valgrind_available g;
     tools_status := tools_status g; dialogs := dialogs g; spawned := spawned g |}.

Definition set_wsl_valgrind_available (v : bool) (g : GUI) : GUI :=
  {| process_entry := process_entry g; text_area := text_area g;
     status_var := status_var g;
     wsl_available := wsl_available g; wsl_gcc_available := wsl_gcc_available g;
     wsl_valgrind_available := v;
     tools_status := tools_status g; dialogs := dialogs g; spawned := spawned g |}.

Definition set_tools_status (v : list string) (g : GUI) : GUI :=
  {| process_entry := process_entry g; text_area := text_area g;
     status_var := status_var g;
     wsl_available := wsl_available g; wsl_gcc_available := wsl_gcc_available g;
     wsl_valgrind_available := wsl_valgrind_available g;
     tools_status := v; dialogs := dialogs g; spawned := spawned g |}.

Definition set_dialogs (v : list dialog) (g : GUI) : GUI :=
  {| process_entry := process_entry g; text_area := text_area g;
     status_var := status_var g;
     wsl_available := wsl_available g; wsl_gcc_available := wsl_gcc_available g;
     wsl_valgrind_available := wsl_valgrind_available g;
     tools_status := tools_status g; dialogs := v; spawned := spawned g |}.

Definition set_spawned (v : list invocation) (g : GUI) : GUI :=
  {| process_entry := process_entry g; text_area := text_area g;
     status_var := status_var g;
     wsl_available := wsl_available g; wsl_gcc_available := wsl_gcc_available g;
     wsl_valgrind_available := wsl_valgrind_available g;
     tools_status := tools_status g; dialogs := dialogs g; spawned := v |}.

(** ** Methods as state transformers that may raise

    A raised exception keeps the state reached so far, as in Python. *)

Inductive outcome (A : Type) :=
| Return (a : A)
| Raise (e : exn).
Arguments Return {A} a.
Arguments Raise {A} e.

Definition M (A : Type) : Type := GUI -> GUI * outcome A.

Definition ret {A} (a : A) : M A := fun g => (g, Return a).

Definition bind {A B} (m : M A) (k : A -> M B) : M B :=
  fun g => match m g with
           | (g', Return a) => k a g'
           | (g', Raise e) => (g', Raise e)
           end.

Definition raise {A} (e : exn) : M A := fun g => (g, Raise e).

(** [try: m  except ...:] where [handler e] is [None] when no clause
    catches [e], which then propagates *)
Definition try_except {A} (m : M A) (handler : exn -> option (M A)) : M A :=
  fun g => match m g with
           | (g', Return a) => (g', Return a)
           | (g', Raise e) => match handler e with
                              | Some h => h g'
                              | None => (g', Raise e)
                              end
           end.

Definition gets {A} (f : GUI -> A) : M A := fun g => (g, Return (f g)).
Definition modify (f : GUI -> GUI) : M unit := fun g => (f g, Return tt).

Notation "x <- m ;; k" := (bind m (fun x => k))
  (at level 61, m at next level, right associativity).
Notation "m ;; k" := (bind m (fun _ => k))
  (at level 61, right associativity).

Definition nl : string := String Re.newline EmptyString.

(** ["=" * 50] and the like *)
Definition rule (c : ascii) : string := PyStr.repeat_char c 50.

(** [self.text_area.insert(tk.END, s)] *)
Definition text_area_insert_end (s : string) : M unit :=
  modify (fun g => set_text_area ((text_area g ++ [s])%list) g).

(** [self.status_var.set(s)] *)
Definition status_var_set (s : string) : M unit := modify (set_status_var s).

(** [self.process_entry.get()] *)
Definition process_entry_get : M string := gets process_entry.

(** [self.process_entry.delete(0, tk.END)] then [insert(0, s)] *)
Definition process_entry_replace (s : string) : M unit :=
  modify (set_process_entry EmptyString) ;;
  modify (fun g => set_process_entry (s ++ process_entry g) g).

(** [messagebox.showerror(title, msg)], [messagebox.showinfo(title, msg)] *)
Definition messagebox (k : box_kind) (t m : string) : M unit :=
  modify (fun g => set_dialogs
            ((dialogs g ++ [{| kind := k; title := t; message := m |}])%list) g).

(** [tools_status.append(s)] *)
Definition tools_status_append (s : string) : M unit :=
  modify (fun g => set_tools_status ((tools_status g ++ [s])%list) g).

(** A pure computation that may raise, run inside a method *)
Definition lift {A} (o : outcome A) : M A := fun g => (g, o).

(** [for x in xs: body(x)] *)
Fixpoint for_each {A} (xs : list A) (body : A -> M unit) : M unit :=
  match xs with
  | [] => ret tt
  | x :: xs' => body x ;; for_each xs' body
  end.

(** [except (FileNotFoundError, subprocess.TimeoutExpired):] *)
Definition except_notfound_or_timeout {A} (h : M A) (e : exn) : option (M A) :=
  match e with
  | FileNotFoundError _ | TimeoutExpired _ => Some h
  | _ => None
  end.

Definition backslash : ascii := "092"%char.

(** ** Path translation *)

(** [_windows_path_to_wsl]; [wsl_path[0]] raises on an empty string *)
Definition _windows_path_to_wsl (windows_path : string) : outcome string :=
  let wsl_path := PyStr.replace backslash "/" windows_path in
  if PyStr.str_in ":" wsl_path then
    match wsl_path with
    | String c0 _ =>
        let drive := String (PyStr.lower c0) EmptyString in
        Return ("/mnt/" ++ drive ++ PyStr.drop 2 wsl_path)
    | EmptyString => Raise (IndexError "string index out of range")
    end
  else Return wsl_path.

(** ** The regular expressions of the parser, as pairs of literals *)

Record pattern := {
  lit_before : string;
  lit_after : string
}.

Definition re_search (p : pattern) (text : string) : option string :=
  Re.search (lit_before p) (lit_after p) text.

(** [r"total heap usage: .* bytes allocated"] *)
Definition memory_summary_pattern : pattern :=
  {| lit_before := "total heap usage: "; lit_after := " bytes allocated" |}.

(** The list [leak_patterns] of [parse_valgrind_output] *)
Definition leak_patterns : list (pattern * string) :=
  [ ({| lit_before := "definitely lost: "; lit_after := " blocks" |}, "Definitely lost");
    ({| lit_before := "indirectly lost: "; lit_after := " blocks" |}, "Indirectly lost");
    ({| lit_before := "possibly lost: "; lit_after := " blocks" |}, "Possibly lost");
    ({| lit_before := "still reachable: "; lit_after := " blocks" |}, "Still reachable");
    ({| lit_before := "suppressed: "; lit_after := " blocks" |}, "Suppressed") ].

Definition no_leak_phrase : string :=
  "All heap blocks were freed -- no leaks are possible".

Definition leak_summary_header : string := "LEAK SUMMARY".

Definition no_leak_verdict : string :=
  nl ++ "✓ RESULT: No memory leaks detected!" ++ nl ++ nl.

Definition leak_verdict : string :=
  nl ++ "⚠ RESULT: Memory leaks detected!" ++ nl ++ nl.

(** One turn of the loop over [leak_patterns] *)
Definition show_leak_pattern (valgrind_stderr : string) (pl : pattern * string)
  : M unit :=
  let '(p, label) := pl in
  match re_search p valgrind_stderr with
  | Some group =>
      match nth_error (PyStr.split ":" group) 1 with
      | Some field =>
          text_area_insert_end ("  " ++ label ++ ": " ++ PyStr.strip field ++ nl)
      | None => raise (IndexError "list index out of range")
      end
  | None => ret tt
  end.

(** [parse_valgrind_output], one definition per commented block of it *)

(** [# Check for memory leaks] *)
Definition show_verdict (valgrind_stderr : string) : M unit :=
  if PyStr.str_in no_leak_phrase valgrind_stderr
  then text_area_insert_end no_leak_verdict
  else text_area_insert_end leak_verdict.

(** [# Extract and display memory usage summary] *)
Definition show_memory_usage (valgrind_stderr : string) : M unit :=
  match re_search memory_summary_pattern valgrind_stderr with
  | Some group => text_area_insert_end ("Memory usage: " ++ group ++ nl)
  | None => ret tt
  end.

Definition leak_summary_heading : list string :=
  [ nl ++ rule "-" ++ nl; "Leak Summary:" ++ nl; rule "-" ++ nl ].

(** [# Extract and display leak summary] *)
Definition show_leak_summary (valgrind_stderr : string) : M unit :=
  if PyStr.str_in leak_summary_header valgrind_stderr
  then
    text_area_insert_end (nl ++ rule "-" ++ nl) ;;
    text_area_insert_end ("Leak Summary:" ++ nl) ;;
    text_area_insert_end (rule "-" ++ nl) ;;
    for_each leak_patterns (show_leak_pattern valgrind_stderr)
  else ret tt.

(** [# Display full Valgrind output for detailed analysis] *)
Definition show_full_output (valgrind_stderr : string) : M unit :=
  text_area_insert_end (nl ++ rule "=" ++ nl) ;;
  text_area_insert_end ("Full Valgrind Output:" ++ nl) ;;
  text_area_insert_end (rule "=" ++ nl) ;;
  text_area_insert_end (valgrind_stderr ++ nl).

Definition parse_valgrind_output (valgrind_stderr : string) : M unit :=
  show_verdict valgrind_stderr ;;
  show_memory_usage valgrind_stderr ;;
  show_leak_summary valgrind_stderr ;;
  show_full_output valgrind_stderr.

(** ** The invocations *)

Definition gcc_version : invocation :=
  {| args := ["gcc"; "--version"]; shell := true; timeout := 5 |}.
Definition valgrind_version : invocation :=
  {| args := ["valgrind"; "--version"]; shell := true; timeout := 5 |}.
Definition wsl_status : invocation :=
  {| args := ["wsl"; "--status"]; shell := true; timeout := 5 |}.
Definition wsl_gcc_version : invocation :=
  {| args := ["wsl"; "gcc"; "--version"]; shell := true; timeout := 5 |}.
Definition wsl_valgrind_version : invocation :=
  {| args := ["wsl"; "valgrind"; "--version"]; shell := true; timeout := 5 |}.

Definition wsl_compile_cmd (wsl_exe wsl_path : string) : invocation :=
  {| args := ["wsl"; "gcc"; "-g"; "-o"; wsl_exe; wsl_path];
     shell := true; timeout := 30 |}.
Definition windows_compile_cmd (exe_name file_path : string) : invocation :=
  {| args := ["gcc"; "-g"; "-o"; exe_name; file_path];
     shell := true; timeout := 30 |}.
Definition wsl_valgrind_cmd (wsl_path : string) : invocation :=
  {| args := ["wsl"; "valgrind"; "--leak-check=full"; "--track-origins=yes";
              "--show-leak-kinds=all"; wsl_path];
     shell := true; timeout := 30 |}.
Definition native_valgrind_cmd (executable_path : string) : invocation :=
  {| args := ["valgrind"; "--leak-check=full"; "--track-origins=yes";
              executable_path];
     shell := false; timeout := 30 |}.
Definition basic_cmd (executable_path : string) : invocation :=
  {| args := [executable_path]; shell := false; timeout := 10 |}.

(** ** Vocabulary of the statements *)

(** No newline in a string *)
Fixpoint no_newline (s : string) : bool :=
  match s with
  | EmptyString => true
  | String c s' => negb (Ascii.eqb c Re.newline) && no_newline s'
  end.

(** [pre.*suf] occurs in [text]: some line of it holds [pre], then
    anything, then [suf] *)
Definition occurs (pre suf text : string) : Prop :=
  exists before body after,
    text = before ++ pre ++ body ++ suf ++ after /\ no_newline body = true.

Definition pattern_occurs (p : pattern) (text : string) : Prop :=
  occurs (lit_before p) (lit_after p) text.

(** [m] only appends [chunks] to the text area, whatever the state, and
    returns [a]: nothing else changes and nothing is raised. *)
Definition writes {A} (m : M A) (chunks : list string) (a : A) : Prop :=
  forall g, m g = (set_text_area ((text_area g ++ chunks)%list) g, Return a).

(** What one turn of the loop over the patterns adds *)
Definition row_of (text : string) (pl : pattern * string) (row : list string)
  : Prop :=
  (exists group,
      re_search (fst pl) text = Some group /\
      row = [ "  " ++ snd pl ++ ": "
                ++ PyStr.strip (nth 1 (PyStr.split ":" group) "") ++ nl ])
  \/ (re_search (fst pl) text = None /\ row = []).

Definition full_output_section (text : string) : list string :=
  [ nl ++ rule "=" ++ nl; "Full Valgrind Output:" ++ nl; rule "=" ++ nl;
    text ++ nl ].

(** A drive letter: A-Z or a-z *)
Definition is_drive_letter (c : ascii) : bool :=
  let n := nat_of_ascii c in
  (((65 <=? n) && (n <=? 90)) || ((97 <=? n) && (n <=? 122)))%nat.

(** What a probe's version query must not be for the tool to count as
    present: a non-zero exit status, a missing executable, a timeout *)
Definition probe_fails (r : run_result) : bool :=
  match r with
  | Completed c => negb (returncode c =? 0)%Z
  | Raises (FileNotFoundError _) | Raises (TimeoutExpired _) => true
  | Raises _ => false
  end.

(** The process ran and exited with status zero *)
Definition exits_zero (r : run_result) : bool :=
  match r with
  | Completed c => (returncode c =? 0)%Z
  | Raises _ => false
  end.

(** The process ran and exited with a status other than zero *)
Definition exits_nonzero (r : run_result) : bool :=
  match r with
  | Completed c => negb (returncode c =? 0)%Z
  | Raises _ => false
  end.

(** ** Concrete states and worlds for the examples *)

Definition fresh_gui (entry : string) (wsl gcc valgrind : bool) : GUI :=
  {| process_entry := entry; text_area := []; status_var := "Ready";
     wsl_available := wsl; wsl_gcc_available := gcc;
     wsl_valgrind_available := valgrind;
     tools_status := []; dialogs := []; spawned := [] |}.

Fixpoint args_eqb (a b : list string) : bool :=
  match a, b with
  | [], [] => true
  | x :: a', y :: b' => String.eqb x y && args_eqb a' b'
  | _, _ => false
  end.

Definition invocation_eqb (a b : invocation) : bool :=
  args_eqb (args a) (args b) && Bool.eqb (shell a) (shell b)
  && (timeout a =? timeout b)%Z.

(** A world given by a table of answers and a default *)
Fixpoint world_of (table : list (invocation * run_result))
    (default : run_result) (inv : invocation) : run_result :=
  match table with
  | [] => default
  | (i, r) :: table' =>
      if invocation_eqb i inv then r else world_of table' default inv
  end.

Definition exits (rc : Z) (out err : string) : run_result :=
  Completed {| returncode := rc; stdout := out; stderr := err |}.

Definition always_exists (path : string) : bool := true.
Definition never_exists (path : string) : bool := false.

(** A stand-in for [os.path.basename] in the examples *)
Definition whole_path (path : string) : string := path.

(** No tool is installed: every command is not found. *)
Definition world_nothing_installed : invocation -> run_result :=
  world_of [] (Raises (FileNotFoundError "No such file or directory")).

(** Every command runs and exits with status zero. *)
Definition world_all_zero : invocation -> run_result :=
  world_of [] (exits 0 "" "").

(** The checker through WSL breaks down, the native checker would run,
    and so does the target. *)
Definition world_wsl_checker_breaks : invocation -> run_result :=
  world_of
    [ (wsl_valgrind_cmd "prog", Raises (OtherException "boom"));
      (native_valgrind_cmd "prog", exits 0 "" no_leak_phrase);
      (basic_cmd "prog", exits 0 "hi" "") ]
    (Raises (FileNotFoundError "No such file or directory")).

(** No checker at all, and a target that prints a line and exits with 3 *)
Definition world_no_checker : invocation -> run_result :=
  world_of
    [ (basic_cmd "prog.exe", exits 3 "hello" "") ]
    (Raises (FileNotFoundError "No such file or directory")).

(** The checker through WSL runs and exits with status 1. *)
Definition world_checker_exits_one : invocation -> run_result :=
  world_of
    [ (wsl_valgrind_cmd "/mnt/c/a/prog", exits 1 "" "LEAK SUMMARY") ]
    (Raises (FileNotFoundError "No such file or directory")).

(** The query of the native valgrind is refused by the system. *)
Definition world_probe_breaks : invocation -> run_result :=
  world_of
    [ (valgrind_version, Raises (OtherException "Access is denied")) ]
    (exits 0 "" "").

(** WSL and its gcc are there, valgrind is not installed in it. *)
Definition world_wsl_without_valgrind : invocation -> run_result :=
  world_of
    [ (wsl_valgrind_version, exits 127 "" "valgrind: command not found") ]
    (exits 0 "" "").

(** The compile through WSL hangs; every other command exits with zero. *)
Definition world_wsl_gcc_times_out : invocation -> run_result :=
  world_of
    [ (wsl_compile_cmd "/mnt/c/src/leak" "/mnt/c/src/leak.c",
       Raises (TimeoutExpired "timed out after 30 seconds")) ]
    (exits 0 "" "").

Section World.

Set Default Proof Using "Type".

(** What [subprocess.run] does on each invocation, [os.path.exists],
    [os.path.basename] and [platform.system()] *)
Variable run : invocation -> run_result.
Variable os_path_exists : string -> bool.
Variable os_path_basename : string -> string.
Variable platform_system : string.

(** [subprocess.run(...)] *)
Definition subprocess_run (inv : invocation) : M CompletedProcess :=
  fun g => let g' := set_spawned ((spawned g ++ [inv])%list) g in
           match run inv with
           | Completed c => (g', Return c)
           | Raises e => (g', Raise e)
           end.

(** ** Tool detection *)

Definition _check_windows_gcc : M unit :=
  try_except
    (result <- subprocess_run gcc_version ;;
     if (returncode result =? 0)%Z
     then tools_status_append "✓ GCC compiler available (Windows)"
     else tools_status_append "✗ GCC compiler not found (Windows)")
    (except_notfound_or_timeout
       (tools_status_append "✗ GCC compiler not found (Windows)")).

Definition _check_windows_valgrind : M unit :=
  try_except
    (result <- subprocess_run valgrind_version ;;
     if (returncode result =? 0)%Z
     then tools_status_append "✓ Valgrind available (Windows)"
     else tools_status_append "✗ Valgrind not available (Windows)")
    (except_notfound_or_timeout
       (tools_status_append "✗ Valgrind not available (Windows)")).

Definition _check_wsl_gcc : M unit :=
  try_except
    (result <- subprocess_run wsl_gcc_version ;;
     if (returncode result =? 0)%Z
     then (tools_status_append "✓ GCC available in WSL" ;;
           modify (set_wsl_gcc_available true))
     else tools_status_append "✗ GCC not installed in WSL")
    (except_notfound_or_timeout
       (tools_status_append "✗ GCC not installed in WSL")).

Definition _check_wsl_valgrind : M unit :=
  try_except
    (result <- subprocess_run wsl_valgrind_version ;;
     if (returncode result =? 0)%Z
     then (tools_status_append "✓ Valgrind available in WSL" ;;
           modify (set_wsl_valgrind_available true))
     else tools_status_append "✗ Valgrind not installed in WSL")
    (except_notfound_or_timeout
       (tools_status_append "✗ Valgrind not installed in WSL")).

Definition _check_wsl_tools : M unit :=
  try_except
    (result <- subprocess_run wsl_status ;;
     if (returncode result =? 0)%Z
     then (tools_status_append "✓ WSL available" ;;
           modify (set_wsl_available true) ;;
           _check_wsl_gcc ;;
           _check_wsl_valgrind)
     else tools_status_append "✗ WSL not available")
    (except_notfound_or_timeout
       (tools_status_append "✗ WSL not available")).

Definition _display_tool_status : M unit :=
  text_area_insert_end (rule "=" ++ nl) ;;
  text_area_insert_end ("TOOL STATUS" ++ nl) ;;
  text_area_insert_end (rule "=" ++ nl) ;;
  statuses <- gets tools_status ;;
  for_each statuses (fun status => text_area_insert_end (status ++ nl)) ;;
  wa <- gets wsl_available ;;
  wg <- gets wsl_gcc_available ;;
  wv <- gets wsl_valgrind_available ;;
  (if wa && (negb wg || negb wv)
   then
     text_area_insert_end (nl ++ rule "=" ++ nl) ;;
     text_area_insert_end ("📝 SETUP INSTRUCTIONS" ++ nl) ;;
     text_area_insert_end (rule "=" ++ nl) ;;
     text_area_insert_end
       ("To install missing tools, open Ubuntu from Start Menu and run:"
          ++ nl ++ nl) ;;
     text_area_insert_end
       ("  sudo apt update && sudo apt install -y gcc valgrind" ++ nl)
   else ret tt) ;;
  text_area_insert_end (nl ++ rule "=" ++ nl ++ nl).

Definition check_tools : M unit :=
  modify (set_tools_status []) ;;
  modify (set_wsl_available false) ;;
  modify (set_wsl_gcc_available false) ;;
  modify (set_wsl_valgrind_available false) ;;
  _check_windows_gcc ;;
  _check_windows_valgrind ;;
  _check_wsl_tools ;;
  _display_tool_status.

(** ** Compilation *)

Definition _compile_with_wsl_gcc (file_path : string) : M bool :=
  text_area_insert_end ("Using WSL GCC compiler..." ++ nl) ;;
  wsl_path <- lift (_windows_path_to_wsl file_path) ;;
  let exe_name := PyStr.slice_to_minus2 file_path in
  let wsl_exe := PyStr.slice_to_minus2 wsl_path in
  result <- subprocess_run (wsl_compile_cmd wsl_exe wsl_path) ;;
  if (returncode result =? 0)%Z
  then
    text_area_insert_end ("✓ Compilation successful!" ++ nl) ;;
    text_area_insert_end ("  Executable: " ++ exe_name ++ nl) ;;
    process_entry_replace exe_name ;;
    status_var_set "Compilation successful (WSL)" ;;
    ret true
  else
    text_area_insert_end
      ("✗ Compilation failed:" ++ nl ++ stderr result ++ nl) ;;
    status_var_set "Compilation failed" ;;
    ret false.

Definition _compile_with_windows_gcc (file_path : string) : M unit :=
  text_area_insert_end ("Using Windows GCC compiler..." ++ nl) ;;
  let exe_name :=
    if String.eqb platform_system "Windows"
    then PyStr.slice_to_minus2 file_path ++ ".exe"
    else PyStr.slice_to_minus2 file_path in
  result <- subprocess_run (windows_compile_cmd exe_name file_path) ;;
  if (returncode result =? 0)%Z
  then
    text_area_insert_end ("✓ Compilation successful!" ++ nl) ;;
    text_area_insert_end ("  Executable: " ++ exe_name ++ nl) ;;
    process_entry_replace exe_name ;;
    status_var_set "Compilation successful"
  else
    text_area_insert_end
      ("✗ Compilation failed:" ++ nl ++ stderr result ++ nl) ;;
    status_var_set "Compilation failed".

Definition gcc_not_found_msg : string :=
  "GCC compiler not found!" ++ nl
    ++ "Please install GCC in WSL or MinGW on Windows.".

Definition compile_c_file : M unit :=
  entry <- process_entry_get ;;
  let file_path := PyStr.strip entry in
  if negb (PyStr.truthy file_path)
  then messagebox showerror "Error" "Please select a C source file!"
  else if negb (PyStr.endswith ".c" file_path)
  then messagebox showinfo "Info" "Selected file is not a C source file (.c)"
  else if negb (os_path_exists file_path)
  then messagebox showerror "Error" ("File not found: " ++ file_path)
  else
    status_var_set "Compiling..." ;;
    text_area_insert_end (nl ++ rule "=" ++ nl) ;;
    text_area_insert_end ("COMPILING: " ++ os_path_basename file_path ++ nl) ;;
    text_area_insert_end (rule "=" ++ nl) ;;
    try_except
      (wa <- gets wsl_available ;;
       wg <- gets wsl_gcc_available ;;
       if wa && wg
       then (success <- _compile_with_wsl_gcc file_path ;;
             if success then ret tt
             else _compile_with_windows_gcc file_path)
       else _compile_with_windows_gcc file_path)
      (fun e =>
         match e with
         | FileNotFoundError _ =>
             Some (messagebox showerror "Error" gcc_not_found_msg ;;
                   text_area_insert_end ("✗ " ++ gcc_not_found_msg ++ nl) ;;
                   status_var_set "GCC not found")
         | _ =>
             Some (messagebox showerror "Error"
                     ("Compilation error: " ++ str_of_exn e) ;;
                   text_area_insert_end
                     ("✗ Unexpected error: " ++ str_of_exn e ++ nl) ;;
                   status_var_set "Compilation error")
         end).

(** ** Memory analysis *)

Definition _run_wsl_valgrind (executable_path : string) : M bool :=
  try_except
    (text_area_insert_end ("Running Valgrind memory check (WSL)..." ++ nl) ;;
     wsl_path <- lift (_windows_path_to_wsl executable_path) ;;
     result <- subprocess_run (wsl_valgrind_cmd wsl_path) ;;
     parse_valgrind_output (stderr result) ;;
     status_var_set "Valgrind analysis complete (WSL)" ;;
     ret true)
    (fun e =>
       match e with
       | TimeoutExpired _ =>
           Some (text_area_insert_end
                   ("⚠ Valgrind execution timed out (30 seconds)" ++ nl) ;;
                 text_area_insert_end
                   ("The program may be hanging or taking too long." ++ nl) ;;
                 ret false)
       | _ =>
           Some (text_area_insert_end
                   ("✗ WSL Valgrind error: " ++ str_of_exn e ++ nl) ;;
                 ret false)
       end).

Definition _run_native_valgrind (executable_path : string) : M bool :=
  try_except
    (text_area_insert_end ("Trying native Valgrind..." ++ nl) ;;
     result <- subprocess_run (native_valgrind_cmd executable_path) ;;
     parse_valgrind_output (stderr result) ;;
     status_var_set "Valgrind analysis complete" ;;
     ret true)
    (fun e =>
       match e with
       | FileNotFoundError _ =>
           Some (text_area_insert_end ("⚠ Valgrind not available." ++ nl) ;;
                 text_area_insert_end
                   ("Install Valgrind in WSL for memory leak detection." ++ nl) ;;
                 text_area_insert_end
                   ("Falling back to basic analysis..." ++ nl ++ nl) ;;
                 ret false)
       | TimeoutExpired _ =>
           Some (text_area_insert_end ("⚠ Valgrind execution timed out" ++ nl) ;;
                 ret false)
       | _ => Some (ret false)
       end).

Definition try_valgrind (executable_path : string) : M bool :=
  wa <- gets wsl_available ;;
  wv <- gets wsl_valgrind_available ;;
  if wa && wv
  then _run_wsl_valgrind executable_path
  else _run_native_valgrind executable_path.

Definition no_leak_detection_note : list string :=
  [ nl ++ rule "!" ++ nl;
    "⚠ NOTE: Memory leak detection requires Valgrind!" ++ nl;
    "Install WSL and Valgrind for full memory analysis." ++ nl;
    rule "!" ++ nl ].

Definition basic_analysis (executable_path : string) : M unit :=
  text_area_insert_end (nl ++ rule "-" ++ nl) ;;
  text_area_insert_end
    ("Running basic execution (no memory leak detection)..." ++ nl) ;;
  text_area_insert_end (rule "-" ++ nl) ;;
  try_except
    (result <- subprocess_run (basic_cmd executable_path) ;;
     text_area_insert_end
       (nl ++ "Exit code: " ++ PyStr.str_of_int (returncode result)) ;;
     (if (returncode result =? 0)%Z
      then text_area_insert_end (" (Success)" ++ nl)
      else text_area_insert_end (" (Error)" ++ nl)) ;;
     (if PyStr.truthy (stdout result)
      then text_area_insert_end
             (nl ++ "Program output:" ++ nl ++ stdout result ++ nl)
      else ret tt) ;;
     (if PyStr.truthy (stderr result)
      then text_area_insert_end
             (nl ++ "Program errors:" ++ nl ++ stderr result ++ nl)
      else ret tt) ;;
     for_each no_leak_detection_note text_area_insert_end ;;
     status_var_set "Basic analysis complete (no leak detection)")
    (fun e =>
       match e with
       | TimeoutExpired _ =>
           Some (text_area_insert_end
                   (nl ++ "⚠ Program execution timed out (10 seconds)" ++ nl) ;;
                 text_area_insert_end
                   ("The program may be hanging or waiting for input." ++ nl) ;;
                 status_var_set "Execution timed out")
       | _ =>
           Some (text_area_insert_end
                   (nl ++ "✗ Execution error: " ++ str_of_exn e ++ nl) ;;
                 status_var_set "Execution error")
       end).

Definition analyze_memory : M unit :=
  entry <- process_entry_get ;;
  let executable_path := PyStr.strip entry in
  if negb (PyStr.truthy executable_path)
  then messagebox showerror "Error" "Please select an executable file!"
  else if negb (os_path_exists executable_path)
  then messagebox showerror "Error" ("File not found: " ++ executable_path)
  else
    status_var_set "Analyzing memory..." ;;
    text_area_insert_end (nl ++ rule "=" ++ nl) ;;
    text_area_insert_end
      ("MEMORY ANALYSIS: " ++ os_path_basename executable_path ++ nl) ;;
    text_area_insert_end (rule "=" ++ nl) ;;
    try_except
      (ran <- try_valgrind executable_path ;;
       if ran then ret tt else basic_analysis executable_path)
      (fun e =>
         Some (messagebox showerror "Error"
                 ("Analysis error: " ++ str_of_exn e) ;;
               text_area_insert_end ("✗ Error: " ++ str_of_exn e ++ nl) ;;
               status_var_set "Analysis error")).

(** ** Utility *)

Definition clear_output : M unit :=
  modify (set_text_area []) ;;
  check_tools.

(** ** Vocabulary of the statements about the methods *)

(** The five probe checks: the version query each one runs, the status
    line it appends when the tool is not there, and the check itself *)
Definition probes : list (invocation * string * M unit) :=
  [ (gcc_version, "✗ GCC compiler not found (Windows)", _check_windows_gcc);
    (valgrind_version, "✗ Valgrind not available (Windows)",
     _check_windows_valgrind);
    (wsl_status, "✗ WSL not available", _check_wsl_tools);
    (wsl_gcc_version, "✗ GCC not installed in WSL", _check_wsl_gcc);
    (wsl_valgrind_version, "✗ Valgrind not installed in WSL",
     _check_wsl_valgrind) ].

(** A capability the state shows as present was probed with success. *)
Definition flags_sound (g : GUI) : Prop :=
  (wsl_available g = true -> exits_zero (run wsl_status) = true)
  /\ (wsl_gcc_available g = true ->
      exits_zero (run wsl_status) = true
      /\ exits_zero (run wsl_gcc_version) = true)
  /\ (wsl_valgrind_available g = true ->
      exits_zero (run wsl_status) = true
      /\ exits_zero (run wsl_valgrind_version) = true)
  /\ (In "✓ GCC compiler available (Windows)" (tools_status g) ->
      exits_zero (run gcc_version) = true)
  /\ (In "✓ Valgrind available (Windows)" (tools_status g) ->
      exits_zero (run valgrind_version) = true).

(** [m] keeps [Inv], whether it returns or raises *)
Definition preserves {A} (Inv : GUI -> Prop) (m : M A) : Prop :=
  forall g, Inv g -> Inv (fst (m g)).

(** The path a source or executable has inside WSL *)
Definition wsl_path_of (windows_path : string) : string :=
  match _windows_path_to_wsl windows_path with
  | Return w => w
  | Raise _ => EmptyString
  end.

(** The three dialogs of the compile guard *)
Definition no_file_selected : dialog :=
  {| kind := showerror; title := "Error";
     message := "Please select a C source file!" |}.
Definition not_a_c_file : dialog :=
  {| kind := showinfo; title := "Info";
     message := "Selected file is not a C source file (.c)" |}.
Definition file_not_found (file_path : string) : dialog :=
  {| kind := showerror; title := "Error";
     message := "File not found: " ++ file_path |}.

Definition basic_banner : list string :=
  [ nl ++ rule "-" ++ nl;
    "Running basic execution (no memory leak detection)..." ++ nl;
    rule "-" ++ nl ].

(** What [basic_analysis] leaves, by what running the target does: the
    exit status, the output and the errors with the reminder that no leak
    detection took place; or the report of a timeout; or the report of a
    failure to launch. *)
Definition basic_analysis_result (executable_path : string) (g : GUI)
  : GUI * outcome unit :=
  match run (basic_cmd executable_path) with
    | Completed c =>
        (set_status_var "Basic analysis complete (no leak detection)"
           (set_text_area
              (text_area g +++ basic_banner
                 +++ [ nl ++ "Exit code: " ++ PyStr.str_of_int (returncode c);
                       if (returncode c =? 0)%Z
                       then " (Success)" ++ nl else " (Error)" ++ nl ]
                 +++ (if PyStr.truthy (stdout c)
                      then [ nl ++ "Program output:" ++ nl ++ stdout c ++ nl ]
                      else [])
                 +++ (if PyStr.truthy (stderr c)
                      then [ nl ++ "Program errors:" ++ nl ++ stderr c ++ nl ]
                      else [])
                 +++ no_leak_detection_note)
              (set_spawned (spawned g +++ [basic_cmd executable_path]) g)),
         Return tt)
    | Raises (TimeoutExpired m) =>
        (set_status_var "Execution timed out"
           (set_text_area
              (text_area g +++ basic_banner
                 +++ [ nl ++ "⚠ Program execution timed out (10 seconds)" ++ nl;
                       "The program may be hanging or waiting for input." ++ nl ])
              (set_spawned (spawned g +++ [basic_cmd executable_path]) g)),
         Return tt)
    | Raises e =>
        (set_status_var "Execution error"
           (set_text_area
              (text_area g +++ basic_banner
                 +++ [ nl ++ "✗ Execution error: " ++ str_of_exn e ++ nl ])
              (set_spawned (spawned g +++ [basic_cmd executable_path]) g)),
         Return tt)
    end.

(** The three lines that open an analysis *)
Definition analysis_banner (executable_path : string) : list string :=
  [ nl ++ rule "=" ++ nl;
    "MEMORY ANALYSIS: " ++ os_path_basename executable_path ++ nl;
    rule "=" ++ nl ].

(** What [_run_wsl_valgrind] reports when the run raises *)
Definition wsl_failure_lines (e : exn) : list string :=
  match e with
  | TimeoutExpired _ =>
      [ "⚠ Valgrind execution timed out (30 seconds)" ++ nl;
        "The program may be hanging or taking too long." ++ nl ]
  | _ => [ "✗ WSL Valgrind error: " ++ str_of_exn e ++ nl ]
  end.

(** What [_run_native_valgrind] reports when the run raises *)
Definition native_failure_lines (e : exn) : list string :=
  match e with
  | FileNotFoundError _ =>
      [ "⚠ Valgrind not available." ++ nl;
        "Install Valgrind in WSL for memory leak detection." ++ nl;
        "Falling back to basic analysis..." ++ nl ++ nl ]
  | TimeoutExpired _ => [ "⚠ Valgrind execution timed out" ++ nl ]
  | _ => []
  end.

(** ** The rest of the interface *)

(** [browse_file], given what [filedialog.askopenfilename] returned: the
    empty string when the dialog was cancelled *)
Definition browse_file (filename : string) : M unit :=
  if PyStr.truthy filename
  then process_entry_replace filename
  else ret tt.

(** [__init__]: the flags are off, the widgets are created with an empty
    entry, an empty text area and the status "Ready", and the tools are
    checked. *)
Definition init : GUI * outcome unit :=
  check_tools (fresh_gui "" false false false).

(** ** Vocabulary of the statements about whole actions *)

(** Every character of a string satisfies [P] *)
Fixpoint string_forall (P : ascii -> bool) (s : string) : bool :=
  match s with
  | EmptyString => true
  | String c s' => P c && string_forall P s'
  end.

(** The exception a probe lets through: any but the two it catches *)
Definition uncaught (r : run_result) : option exn :=
  match r with
  | Completed _ => None
  | Raises (FileNotFoundError _) | Raises (TimeoutExpired _) => None
  | Raises e => Some e
  end.

(** The status line of a probe *)
Definition probe_line (r : run_result) (present absent : string) : string :=
  if exits_zero r then present else absent.

(** [m] takes every state [g] to a state related to it by [R], whether
    it returns or raises. *)
Definition keeps {A} (R : GUI -> GUI -> Prop) (m : M A) : Prop :=
  forall g, R g (fst (m g)).

(** [m] never raises. *)
Definition returns {A} (m : M A) : Prop :=
  forall g, exists a, snd (m g) = Return a.

(** What compiling and analysing leave alone: the capability flags and
    the list of tool lines stay, and the text area, the dialogs shown and
    the processes spawned only grow. *)
Definition action_frame (g g' : GUI) : Prop :=
  wsl_available g' = wsl_available g
  /\ wsl_gcc_available g' = wsl_gcc_available g
  /\ wsl_valgrind_available g' = wsl_valgrind_available g
  /\ tools_status g' = tools_status g
  /\ (exists chunks, text_area g' = text_area g +++ chunks)
  /\ (exists shown, dialogs g' = dialogs g +++ shown)
  /\ (exists invs, spawned g' = spawned g +++ invs).

(** The same, and the entry stays too *)
Definition analysis_frame (g g' : GUI) : Prop :=
  action_frame g g' /\ process_entry g' = process_entry g.

(** What probing leaves alone: the entry, the status line and the
    dialogs stay, and the text area and the processes spawned only grow. *)
Definition probe_frame (g g' : GUI) : Prop :=
  process_entry g' = process_entry g
  /\ status_var g' = status_var g
  /\ dialogs g' = dialogs g
  /\ (exists chunks, text_area g' = text_area g +++ chunks)
  /\ (exists invs, spawned g' = spawned g +++ invs).

(** What [_display_tool_status] appends in state [g] *)
Definition setup_instructions : list string :=
  [ nl ++ rule "=" ++ nl;
    "📝 SETUP INSTRUCTIONS" ++ nl;
    rule "=" ++ nl;
    "To install missing tools, open Ubuntu from Start Menu and run:"
      ++ nl ++ nl;
    "  sudo apt update && sudo apt install -y gcc valgrind" ++ nl ].

Definition tool_status_display (lines : list string) (wsl gcc valgrind : bool)
  : list string :=
  [ rule "=" ++ nl; "TOOL STATUS" ++ nl; rule "=" ++ nl ]
    +++ map (fun status => status ++ nl) lines
    +++ (if wsl && (negb gcc || negb valgrind) then setup_instructions else [])
    +++ [ nl ++ rule "=" ++ nl ++ nl ].


(** The state [check_tools] leaves from [g]: the tool lines and the flags
    are set anew, the text area and the spawn record grow, the rest stays. *)
Definition probe_state (g : GUI) (lines : list string)
    (wsl gcc valgrind : bool) (invs : list invocation) (shown : list string)
  : GUI :=
  set_text_area (text_area g +++ shown)
    (set_spawned (spawned g +++ invs)
       (set_tools_status lines
          (set_wsl_valgrind_available valgrind
             (set_wsl_gcc_available gcc
                (set_wsl_available wsl g))))).

(** What [check_tools] does, read off the answers of the world: the
    probes run in order until one raises something it does not catch; the
    two probes inside WSL run only when [wsl --status] exits with zero;
    the status is displayed only when nothing was raised. *)
Definition check_tools_result (g : GUI) : GUI * outcome unit :=
  let l1 := probe_line (run gcc_version)
              "✓ GCC compiler available (Windows)"
              "✗ GCC compiler not found (Windows)" in
  let l2 := probe_line (run valgrind_version)
              "✓ Valgrind available (Windows)"
              "✗ Valgrind not available (Windows)" in
  let l4 := probe_line (run wsl_gcc_version)
              "✓ GCC available in WSL" "✗ GCC not installed in WSL" in
  let l5 := probe_line (run wsl_valgrind_version)
              "✓ Valgrind available in WSL"
              "✗ Valgrind not installed in WSL" in
  let gcc := exits_zero (run wsl_gcc_version) in
  let valgrind := exits_zero (run wsl_valgrind_version) in
  match uncaught (run gcc_version) with
  | Some e => (probe_state g [] false false false [gcc_version] [], Raise e)
  | None =>
  match uncaught (run valgrind_version) with
  | Some e =>
      (probe_state g [l1] false false false
         [gcc_version; valgrind_version] [], Raise e)
  | None =>
  match uncaught (run wsl_status) with
  | Some e =>
      (probe_state g [l1; l2] false false false
         [gcc_version; valgrind_version; wsl_status] [], Raise e)
  | None =>
  if exits_zero (run wsl_status) then
    match uncaught (run wsl_gcc_version) with
    | Some e =>
        (probe_state g [l1; l2; "✓ WSL available"] true false false
           [gcc_version; valgrind_version; wsl_status; wsl_gcc_version] [],
         Raise e)
    | None =>
    match uncaught (run wsl_valgrind_version) with
    | Some e =>
        (probe_state g [l1; l2; "✓ WSL available"; l4] true gcc false
           [gcc_version; valgrind_version; wsl_status; wsl_gcc_version;
            wsl_valgrind_version] [],
         Raise e)
    | None =>
        (probe_state g [l1; l2; "✓ WSL available"; l4; l5] true gcc valgrind
           [gcc_version; valgrind_version; wsl_status; wsl_gcc_version;
            wsl_valgrind_version]
           (tool_status_display [l1; l2; "✓ WSL available"; l4; l5]
              true gcc valgrind),
         Return tt)
    end
    end
  else
    (probe_state g [l1; l2; "✗ WSL not available"] false false false
       [gcc_version; valgrind_version; wsl_status]
       (tool_status_display [l1; l2; "✗ WSL not available"]
          false false false),
     Return tt)
  end
  end
  end.


(** The one checker an analysis runs from state [g] *)
Definition chosen_checker (g : GUI) (executable_path : string) : invocation :=
  if wsl_available g && wsl_valgrind_available g
  then wsl_valgrind_cmd (wsl_path_of executable_path)
  else native_valgrind_cmd executable_path.

(** The process ran to its end, with whatever exit status. *)
Definition completes (r : run_result) : bool :=
  match r with
  | Completed _ => true
  | Raises _ => false
  end.


(** The first and the last character of a string *)
Definition first_char (s : string) : option ascii :=
  match s with
  | EmptyString => None
  | String c _ => Some c
  end.

Fixpoint last_char (s : string) : option ascii :=
  match s with
  | EmptyString => None
  | String c EmptyString => Some c
  | String _ s' => last_char s'
  end.

(** Neither a colon nor a newline *)
Definition plain_char (c : ascii) : bool :=
  negb (Ascii.eqb c ":") && negb (Ascii.eqb c Re.newline).


(** * Properties *)

(** ** Strings *)

Lemma append_empty_r (s : string) : s ++ "" = s.
Proof. induction s as [|c s IH]; simpl; [reflexivity | now rewrite IH]. Qed.

Lemma append_assoc (a b c : string) : (a ++ b) ++ c = a ++ (b ++ c).
Proof. induction a as [|x a IH]; simpl; [reflexivity | now rewrite IH]. Qed.

Lemma startswith_append (p t : string) : PyStr.startswith p (p ++ t) = true.
Proof.
  induction p as [|a p IH]; simpl; [reflexivity|].
  now rewrite Ascii.eqb_refl.
Qed.

Lemma startswith_inv (p s : string) :
  PyStr.startswith p s = true -> exists t, s = p ++ t.
Proof.
  revert s; induction p as [|a p IH]; intros s H; simpl in *.
  - now exists s.
  - destruct s as [|b s]; [discriminate|].
    destruct (Ascii.eqb a b) eqn:E; [|discriminate].
    apply Ascii.eqb_eq in E; subst b.
    destruct (IH _ H) as [t ->]. now exists t.
Qed.

Lemma startswith_iff (p s : string) :
  PyStr.startswith p s = true <-> exists t, s = p ++ t.
Proof.
  split; [apply startswith_inv|].
  intros [t ->]; apply startswith_append.
Qed.

Lemma str_in_startswith (needle hay : string) :
  PyStr.startswith needle hay = true -> PyStr.str_in needle hay = true.
Proof. intros H. destruct hay; simpl; now rewrite H. Qed.

(** Python's [in] on strings is the substring relation. *)
Lemma str_in_iff (needle hay : string) :
  PyStr.str_in needle hay = true <->
  exists before after, hay = before ++ needle ++ after.
Proof.
  split.
  - induction hay as [|c hay IH]; simpl.
    + destruct (PyStr.startswith needle "") eqn:E; [|discriminate].
      intros _. apply startswith_inv in E as [t E]. now exists "", t.
    + destruct (PyStr.startswith needle (String c hay)) eqn:E.
      * intros _. apply startswith_inv in E as [t E]. now exists "", t.
      * intros H. destruct (IH H) as (b & a & ->).
        now exists (String c b), a.
  - intros (b & a & ->).
    induction b as [|c b IH].
    + change ("" ++ needle ++ a) with (needle ++ a).
      apply str_in_startswith, startswith_append.
    + simpl. rewrite IH. now destruct (PyStr.startswith needle _).
Qed.

Lemma str_in_false_iff (needle hay : string) :
  PyStr.str_in needle hay = false <->
  ~ exists before after, hay = before ++ needle ++ after.
Proof.
  rewrite <- str_in_iff. destruct (PyStr.str_in needle hay); split; intros H.
  - discriminate.
  - now elim H.
  - intros H'; discriminate.
  - reflexivity.
Qed.

Lemma str_in_append_r (n a b : string) :
  PyStr.str_in n a = true -> PyStr.str_in n (a ++ b) = true.
Proof.
  rewrite !str_in_iff. intros (x & y & ->).
  exists x, (y ++ b). now rewrite !append_assoc.
Qed.

(** A string that holds the separator splits in at least two pieces. *)
Lemma split_two (sep : ascii) (s : string) :
  PyStr.str_in (String sep "") s = true ->
  exists a b rest, PyStr.split sep s = a :: b :: rest.
Proof.
  induction s as [|c s IH]; simpl.
  - discriminate.
  - destruct (Ascii.eqb sep c) eqn:E.
    + intros _. rewrite Ascii.eqb_sym in E. rewrite E.
      destruct s as [|d s]; simpl.
      * now exists "", "", [].
      * destruct (Ascii.eqb d sep).
        -- now exists "", "", (PyStr.split sep s).
        -- destruct (PyStr.split sep s) as [|q qs].
           ++ now exists "", (String d ""), [].
           ++ now exists "", (String d q), qs.
    + intros H. rewrite Ascii.eqb_sym in E. rewrite E.
      destruct (IH H) as (a & b & rest & ->).
      now exists (String c a), b, rest.
Qed.

(** ** The regular expressions *)

Lemma dotstar_then_sound (suf s m : string) :
  Re.dotstar_then suf s = Some m ->
  exists body after,
    m = body ++ suf /\ s = body ++ suf ++ after /\ no_newline body = true.
Proof.
  revert m; induction s as [|c s IH]; intros m; simpl.
  - destruct (PyStr.startswith suf "") eqn:E; [|discriminate].
    intros [= <-]. apply startswith_inv in E as [t E].
    now exists "", t.
  - assert (Hhere : (if PyStr.startswith suf (String c s) then Some suf else None)
                    = Some m ->
                    exists body after, m = body ++ suf
                      /\ String c s = body ++ suf ++ after
                      /\ no_newline body = true).
    { destruct (PyStr.startswith suf (String c s)) eqn:E; [|discriminate].
      intros [= <-]. apply startswith_inv in E as [t E].
      now exists "", t. }
    destruct (Ascii.eqb c Re.newline) eqn:Ec; [exact Hhere|].
    destruct (Re.dotstar_then suf s) as [m'|] eqn:Em; [|exact Hhere].
    intros [= <-]. destruct (IH _ eq_refl) as (body & after & -> & -> & Hb).
    exists (String c body), after. simpl. now rewrite Ec, Hb.
Qed.

Lemma dotstar_then_complete (suf body after : string) :
  no_newline body = true ->
  exists m, Re.dotstar_then suf (body ++ suf ++ after) = Some m.
Proof.
  assert (Hhere : forall s, PyStr.startswith suf s = true ->
                            exists m, Re.dotstar_then suf s = Some m).
  { intros s Hs. destruct s as [|c s]; simpl.
    - simpl in Hs. rewrite Hs. now exists suf.
    - rewrite Hs. destruct (Ascii.eqb c Re.newline); [now exists suf|].
      destruct (Re.dotstar_then suf s) as [m'|]; eauto. }
  induction body as [|c body IH]; simpl; intros Hb.
  - apply Hhere, startswith_append.
  - apply andb_prop in Hb as [Hc Hb].
    apply negb_true_iff in Hc. rewrite Hc.
    destruct (IH Hb) as [m ->]. eauto.
Qed.

Lemma drop_length_append (p t : string) :
  PyStr.drop (String.length p) (p ++ t) = t.
Proof. induction p as [|a p IH]; simpl; [reflexivity | exact IH]. Qed.

Lemma match_here_sound (pre suf s m : string) :
  Re.match_here pre suf s = Some m ->
  exists body after,
    m = pre ++ body ++ suf /\ s = pre ++ body ++ suf ++ after
    /\ no_newline body = true.
Proof.
  unfold Re.match_here.
  destruct (PyStr.startswith pre s) eqn:E; [|discriminate].
  apply startswith_inv in E as [t ->]. rewrite drop_length_append.
  destruct (Re.dotstar_then suf t) as [m'|] eqn:Em; [|discriminate].
  intros [= <-].
  destruct (dotstar_then_sound _ _ _ Em) as (body & after & -> & -> & Hb).
  now exists body, after.
Qed.

(** What [re.search] returns is an occurrence of the pattern, and it
    starts with the pattern's leading literal. *)
Lemma search_sound (pre suf text m : string) :
  Re.search pre suf text = Some m ->
  exists before body after,
    m = pre ++ body ++ suf
    /\ text = before ++ pre ++ body ++ suf ++ after
    /\ no_newline body = true.
Proof.
  induction text as [|c text IH]; simpl.
  - destruct (Re.match_here pre suf "") as [m'|] eqn:E; [|discriminate].
    intros [= <-]. destruct (match_here_sound _ _ _ _ E) as (b & a & ? & ? & ?).
    now exists "", b, a.
  - destruct (Re.match_here pre suf (String c text)) as [m'|] eqn:E.
    + intros [= <-].
      destruct (match_here_sound _ _ _ _ E) as (b & a & ? & ? & ?).
      now exists "", b, a.
    + intros H. destruct (IH H) as (bf & b & a & ? & -> & ?).
      now exists (String c bf), b, a.
Qed.

(** [re.search] finds a match exactly when the pattern occurs. *)
Lemma search_iff (pre suf text : string) :
  (exists m, Re.search pre suf text = Some m) <-> occurs pre suf text.
Proof.
  split.
  - intros [m H]. destruct (search_sound _ _ _ _ H) as (bf & b & a & _ & ? & ?).
    now exists bf, b, a.
  - intros (bf & b & a & -> & Hb).
    assert (Hhere : exists m,
               Re.match_here pre suf (pre ++ b ++ suf ++ a) = Some m).
    { unfold Re.match_here. rewrite startswith_append, drop_length_append.
      destruct (dotstar_then_complete suf b a Hb) as [m ->]. eauto. }
    induction bf as [|c bf IH]; simpl.
    + destruct Hhere as [m Hm].
      destruct (pre ++ b ++ suf ++ a) eqn:E; simpl; rewrite Hm; eauto.
    + destruct (Re.match_here pre suf (String c (bf ++ pre ++ b ++ suf ++ a)));
        eauto.
Qed.

(** ** Methods that only append to the text area *)

Lemma set_text_area_append_nil (g : GUI) :
  set_text_area ((text_area g ++ [])%list) g = g.
Proof. destruct g; unfold set_text_area; simpl. now rewrite app_nil_r. Qed.

Lemma writes_ret {A} (a : A) : writes (ret a) [] a.
Proof. intros g. unfold ret. now rewrite set_text_area_append_nil. Qed.

Lemma writes_insert (s : string) : writes (text_area_insert_end s) [s] tt.
Proof. intros g. reflexivity. Qed.

Lemma writes_bind {A B} (m : M A) (k : A -> M B) c1 c2 a b :
  writes m c1 a -> writes (k a) c2 b -> writes (bind m k) ((c1 ++ c2)%list) b.
Proof.
  intros Hm Hk g. unfold bind. rewrite Hm, Hk.
  unfold set_text_area; simpl. now rewrite app_assoc.
Qed.

Lemma writes_for_each {A} (P : A -> list string -> Prop) (body : A -> M unit)
    (xs : list A) :
  (forall x, In x xs -> exists row, writes (body x) row tt /\ P x row) ->
  exists rows, writes (for_each xs body) (concat rows) tt /\ Forall2 P xs rows.
Proof.
  induction xs as [|x xs IH]; intros H; simpl.
  - exists []. split; [apply writes_ret | constructor].
  - destruct (H x (or_introl eq_refl)) as (row & Hrow & HP).
    destruct IH as (rows & Hrows & HF).
    { intros y Hy. apply H. now right. }
    exists (row :: rows). split; [|now constructor].
    simpl. eapply writes_bind; eassumption.
Qed.

Lemma writes_for_each_insert (xs : list string) :
  writes (for_each xs text_area_insert_end) xs tt.
Proof.
  induction xs as [|x xs IH]; simpl.
  - apply writes_ret.
  - change (x :: xs) with (([x] ++ xs)%list).
    eapply writes_bind; [apply writes_insert | exact IH].
Qed.

Create HintDb writes.
#[local] Hint Resolve writes_ret writes_insert : writes.

(** ** The parser, block by block *)

Lemma show_leak_pattern_writes (text : string) (pl : pattern * string) :
  PyStr.str_in ":" (lit_before (fst pl)) = true ->
  exists row, writes (show_leak_pattern text pl) row tt /\ row_of text pl row.
Proof.
  destruct pl as [p label]; simpl. intros Hcolon.
  unfold show_leak_pattern, row_of; simpl.
  destruct (re_search p text) as [group|] eqn:E.
  - destruct (search_sound _ _ _ _ E) as (bf & body & af & Hm & _ & _).
    assert (Hin : PyStr.str_in ":" group = true).
    { rewrite Hm. now apply str_in_append_r. }
    destruct (split_two _ _ Hin) as (a & b & rest & Hs).
    rewrite Hs; simpl.
    eexists; split; [apply writes_insert|].
    left. exists group. now rewrite Hs.
  - exists []. split; [apply writes_ret | now right].
Qed.

Lemma leak_patterns_have_colon (pl : pattern * string) :
  In pl leak_patterns -> PyStr.str_in ":" (lit_before (fst pl)) = true.
Proof.
  unfold leak_patterns; simpl.
  intros [<-|[<-|[<-|[<-|[<-|[]]]]]]; reflexivity.
Qed.

Lemma show_leak_summary_writes (text : string) :
  exists table,
    writes (show_leak_summary text) table tt /\
    if PyStr.str_in leak_summary_header text
    then exists rows,
        table = (leak_summary_heading ++ concat rows)%list
        /\ Forall2 (row_of text) leak_patterns rows
    else table = [].
Proof.
  unfold show_leak_summary.
  destruct (PyStr.str_in leak_summary_header text).
  - destruct (writes_for_each (row_of text) (show_leak_pattern text)
                leak_patterns) as (rows & Hw & HF).
    { intros pl Hpl. apply show_leak_pattern_writes.
      now apply leak_patterns_have_colon. }
    exists ((leak_summary_heading ++ concat rows)%list). split; [|eauto].
    unfold leak_summary_heading.
    change ([?a; ?b; ?c] ++ concat rows)%list
      with ([a] ++ [b] ++ [c] ++ concat rows)%list.
    repeat (eapply writes_bind; [apply writes_insert|]). exact Hw.
  - exists []. split; [apply writes_ret | reflexivity].
Qed.

Lemma show_verdict_writes (text : string) :
  writes (show_verdict text)
    [if PyStr.str_in no_leak_phrase text then no_leak_verdict else leak_verdict]
    tt.
Proof.
  unfold show_verdict. destruct (PyStr.str_in no_leak_phrase text);
    apply writes_insert.
Qed.

Lemma show_memory_usage_writes (text : string) :
  writes (show_memory_usage text)
    match re_search memory_summary_pattern text with
    | Some group => ["Memory usage: " ++ group ++ nl]
    | None => []
    end tt.
Proof.
  unfold show_memory_usage.
  destruct (re_search memory_summary_pattern text); auto with writes.
Qed.

Lemma show_full_output_writes (text : string) :
  writes (show_full_output text) (full_output_section text) tt.
Proof.
  unfold show_full_output, full_output_section.
  change [?a; ?b; ?c; ?d] with ([a] ++ [b] ++ [c] ++ [d])%list.
  repeat (eapply writes_bind; [apply writes_insert|]). apply writes_insert.
Qed.

(** The parser only appends to the text area, never raises, and what it
    appends is the verdict, the usage line if any, the table if any and
    the raw text, in this order. *)
Lemma parse_valgrind_output_writes (text : string) :
  exists usage table,
    writes (parse_valgrind_output text)
      ([if PyStr.str_in no_leak_phrase text
        then no_leak_verdict else leak_verdict]
         ++ usage ++ table ++ full_output_section text)%list tt
    /\ writes (show_memory_usage text) usage tt
    /\ writes (show_leak_summary text) table tt.
Proof.
  destruct (show_leak_summary_writes text) as (table & Ht & _).
  eexists _, table. split; [|split; [apply show_memory_usage_writes | exact Ht]].
  unfold parse_valgrind_output.
  eapply writes_bind; [apply show_verdict_writes|].
  eapply writes_bind; [apply show_memory_usage_writes|].
  eapply writes_bind; [exact Ht|].
  apply show_full_output_writes.
Qed.

Lemma verdicts_differ : no_leak_verdict <> leak_verdict.
Proof. discriminate. Qed.

(** C1: the parser's first chunk is the no-leak verdict exactly when the
    raw text contains the literal phrase "All heap blocks were freed -- no
    leaks are possible", whatever surrounds it; every text without the
    phrase gets the leak-detected verdict. *)
Theorem C1_verdict_iff_phrase (text : string) :
  exists verdict rest,
    writes (parse_valgrind_output text) (verdict :: rest) tt
    /\ (verdict = no_leak_verdict <->
        exists before after, text = before ++ no_leak_phrase ++ after)
    /\ (verdict = leak_verdict <->
        ~ exists before after, text = before ++ no_leak_phrase ++ after).
Proof.
  destruct (parse_valgrind_output_writes text) as (usage & table & Hw & _ & _).
  eexists _, _. split; [exact Hw|].
  rewrite <- str_in_false_iff, <- str_in_iff.
  pose proof verdicts_differ as Hd.
  destruct (PyStr.str_in no_leak_phrase text); split; split; intros H;
    try reflexivity; try discriminate; congruence.
Qed.

(** C8: the parser is a function of the raw text alone.  For each text
    there is one list of chunks that every call appends, from every state:
    it changes nothing else, raises nothing, and a second call on the same
    text appends the same chunks again. *)
Theorem C8_parse_pure (text : string) :
  exists report,
    (forall g, parse_valgrind_output text g
               = (set_text_area ((text_area g ++ report)%list) g, Return tt))
    /\ (forall g, (parse_valgrind_output text ;; parse_valgrind_output text) g
                  = (set_text_area ((text_area g ++ report ++ report)%list) g,
                     Return tt)).
Proof.
  destruct (parse_valgrind_output_writes text) as (usage & table & Hw & _ & _).
  eexists. split; [exact Hw|].
  exact (writes_bind _ _ _ _ _ _ Hw Hw).
Qed.

Lemma row_of_occurs (text : string) (pl : pattern * string) (row : list string) :
  row_of text pl row ->
  (pattern_occurs (fst pl) text
   /\ exists value, row = [ "  " ++ snd pl ++ ": " ++ value ++ nl ])
  \/ (~ pattern_occurs (fst pl) text /\ row = []).
Proof.
  unfold row_of, pattern_occurs, re_search.
  intros [(group & Hs & ->) | (Hs & ->)].
  - left. split; [apply search_iff; eauto | eauto].
  - right. split; [|reflexivity].
    intros Ho. apply search_iff in Ho as [m Hm]. congruence.
Qed.

(** C2, as the code has it: the table section is written exactly when the
    header "LEAK SUMMARY" occurs in the text, and is omitted entirely
    otherwise; inside it, each of the five categories gets its row exactly
    when its own pattern (label, colon, anything on the line, " blocks")
    occurs in the text as well. *)
Theorem C2_leak_summary_table (text : string) :
  exists usage table,
    writes (parse_valgrind_output text)
      ([if PyStr.str_in no_leak_phrase text
        then no_leak_verdict else leak_verdict]
         ++ usage ++ table ++ full_output_section text)%list tt
    /\ writes (show_memory_usage text) usage tt
    /\ writes (show_leak_summary text) table tt
    /\ (((exists before after, text = before ++ leak_summary_header ++ after)
         /\ exists rows,
             table = (leak_summary_heading ++ concat rows)%list
             /\ Forall2
                  (fun pl row =>
                     (pattern_occurs (fst pl) text
                      /\ exists value,
                          row = [ "  " ++ snd pl ++ ": " ++ value ++ nl ])
                     \/ (~ pattern_occurs (fst pl) text /\ row = []))
                  leak_patterns rows)
        \/ ((~ exists before after, text = before ++ leak_summary_header ++ after)
            /\ table = [])).
Proof.
  destruct (show_leak_summary_writes text) as (table & Ht & Hshape).
  exists match re_search memory_summary_pattern text with
         | Some group => ["Memory usage: " ++ group ++ nl]
         | None => []
         end, table.
  split; [|split; [apply show_memory_usage_writes | split; [exact Ht|]]].
  - unfold parse_valgrind_output.
    eapply writes_bind; [apply show_verdict_writes|].
    eapply writes_bind; [apply show_memory_usage_writes|].
    eapply writes_bind; [exact Ht|].
    apply show_full_output_writes.
  - rewrite <- str_in_false_iff, <- str_in_iff.
    destruct (PyStr.str_in leak_summary_header text).
    + left. split; [reflexivity|].
      destruct Hshape as (rows & -> & HF). exists rows. split; [reflexivity|].
      eapply Forall2_impl; [|exact HF]. intros pl row. apply row_of_occurs.
    + right. now split.
Qed.

(** ** Path translation *)

Lemma drive_letter_not_backslash (d : ascii) :
  is_drive_letter d = true -> Ascii.eqb d backslash = false.
Proof.
  destruct d as [[] [] [] [] [] [] [] []]; vm_compute; congruence.
Qed.

Lemma lower_drive_letter (d : ascii) :
  is_drive_letter d = true ->
  is_drive_letter (PyStr.lower d) = true
  /\ (97 <= nat_of_ascii (PyStr.lower d) <= 122)%nat
  /\ (nat_of_ascii (PyStr.lower d) = nat_of_ascii d
      \/ nat_of_ascii (PyStr.lower d) = nat_of_ascii d + 32)%nat.
Proof.
  destruct d as [[] [] [] [] [] [] [] []]; vm_compute; intros H;
    try discriminate H; repeat split; auto; lia.
Qed.

Lemma str_in_char_cons (c x : ascii) (s : string) :
  PyStr.str_in (String c "") (String x s)
  = Ascii.eqb c x || PyStr.str_in (String c "") s.
Proof. simpl. now destruct (Ascii.eqb c x). Qed.

Lemma replace_no_backslash (s : string) :
  PyStr.str_in (String backslash "") (PyStr.replace backslash "/" s) = false.
Proof.
  induction s as [|c s IH]; [reflexivity|].
  simpl PyStr.replace. rewrite str_in_char_cons, IH, orb_false_r.
  destruct (Ascii.eqb c backslash) eqn:E; [reflexivity|].
  now rewrite Ascii.eqb_sym.
Qed.

(** C3, as the code has it: a path that starts with a drive letter and
    ':' is rewritten to "/mnt/", the drive letter in lower case, and the
    rest of the path with every backslash turned into a forward slash: no
    backslash is left.  When the rest starts with a separator, as in an
    absolute path, the result has the form "/mnt/", the letter, "/" and
    what follows.  "C:\a\b.c" gives "/mnt/c/a/b.c" and "D:\x.c" gives
    "/mnt/d/x.c". *)
Theorem C3_drive_path_translation (d : ascii) (rest : string) :
  is_drive_letter d = true ->
  let translated :=
    "/mnt/" ++ String (PyStr.lower d) (PyStr.replace backslash "/" rest) in
  _windows_path_to_wsl (String d (String ":" rest)) = Return translated
  /\ (97 <= nat_of_ascii (PyStr.lower d) <= 122)%nat
  /\ PyStr.str_in (String backslash "") translated = false
  /\ String.length translated = (6 + String.length rest)%nat
  /\ (forall rest',
        rest = String backslash rest' \/ rest = String "/" rest' ->
        translated
        = "/mnt/" ++ String (PyStr.lower d)
                       (String "/" (PyStr.replace backslash "/" rest')))
  /\ _windows_path_to_wsl "C:\a\b.c" = Return "/mnt/c/a/b.c"
  /\ _windows_path_to_wsl "D:\x.c" = Return "/mnt/d/x.c".
Proof.
  intros Hd translated. subst translated.
  pose proof (drive_letter_not_backslash d Hd) as Hb.
  destruct (lower_drive_letter d Hd) as (Hl & Hrange & _).
  pose proof (drive_letter_not_backslash _ Hl) as Hlb.
  split; [|split; [exact Hrange|split; [|split; [|split; [|split; reflexivity]]]]].
  - unfold _windows_path_to_wsl. simpl PyStr.replace. rewrite Hb.
    rewrite !str_in_char_cons.
    replace (Ascii.eqb ":" ":") with true by reflexivity.
    rewrite orb_true_l, orb_true_r. reflexivity.
  - change ("/mnt/" ++ ?s) with
      (String "/" (String "m" (String "n" (String "t" (String "/" s))))).
    rewrite !str_in_char_cons, (Ascii.eqb_sym backslash (PyStr.lower d)), Hlb.
    rewrite replace_no_backslash. reflexivity.
  - simpl. do 6 f_equal.
    induction rest as [|c r IH]; simpl; [reflexivity | now rewrite IH].
  - intros rest' [-> | ->]; reflexivity.
Qed.

(** ** The compile guard *)

Lemma truthy_false (s : string) : PyStr.truthy s = false <-> s = "".
Proof. destruct s; simpl; split; congruence. Qed.

(** C5: when the entry, stripped, is empty, or does not end in ".c", or
    names no existing file, [compile_c_file] shows one dialog and returns:
    no process is spawned and the status line, the text area and the entry
    stay as they were. *)
Theorem C5_compile_guard (g : GUI) :
  let file_path := PyStr.strip (process_entry g) in
  file_path = "" \/ PyStr.endswith ".c" file_path = false
  \/ os_path_exists file_path = false ->
  exists d,
    compile_c_file g = (set_dialogs ((dialogs g ++ [d])%list) g, Return tt)
    /\ spawned (fst (compile_c_file g)) = spawned g
    /\ status_var (fst (compile_c_file g)) = status_var g
    /\ text_area (fst (compile_c_file g)) = text_area g
    /\ process_entry (fst (compile_c_file g)) = process_entry g
    /\ ((file_path = "" /\ d = no_file_selected)
        \/ (file_path <> "" /\ PyStr.endswith ".c" file_path = false
            /\ d = not_a_c_file)
        \/ (file_path <> "" /\ PyStr.endswith ".c" file_path = true
            /\ os_path_exists file_path = false
            /\ d = file_not_found file_path)).
Proof.
  intros file_path H.
  assert (Hstep : exists d,
     compile_c_file g = (set_dialogs ((dialogs g ++ [d])%list) g, Return tt)
     /\ ((file_path = "" /\ d = no_file_selected)
        \/ (file_path <> "" /\ PyStr.endswith ".c" file_path = false
            /\ d = not_a_c_file)
        \/ (file_path <> "" /\ PyStr.endswith ".c" file_path = true
            /\ os_path_exists file_path = false
            /\ d = file_not_found file_path))).
  { unfold compile_c_file, bind, process_entry_get, gets.
    fold file_path.
    destruct (PyStr.truthy file_path) eqn:Et; simpl negb; cbv iota.
    - assert (Hne : file_path <> "").
      { intros E. rewrite E in Et. discriminate. }
      destruct (PyStr.endswith ".c" file_path) eqn:Ee; simpl negb; cbv iota.
      + destruct (os_path_exists file_path) eqn:Ex; simpl negb; cbv iota.
        * destruct H as [H|[H|H]]; congruence.
        * exists (file_not_found file_path). split; [reflexivity|].
          right; right. auto.
      + exists not_a_c_file. split; [reflexivity|]. right; left. auto.
    - apply truthy_false in Et.
      exists no_file_selected. split; [reflexivity|]. left. auto. }
  destruct Hstep as (d & Hrun & Hd).
  exists d. rewrite Hrun.
  split; [reflexivity|]. repeat (split; [reflexivity|]). exact Hd.
Qed.

(** ** The probes *)

Lemma preserves_bind {A B} (Inv : GUI -> Prop) (m : M A) (k : A -> M B) :
  preserves Inv m -> (forall a, preserves Inv (k a)) ->
  preserves Inv (bind m k).
Proof.
  intros Hm Hk g Hg. unfold bind.
  specialize (Hm g Hg). destruct (m g) as [g' [a|e]]; simpl in *.
  - now apply Hk.
  - exact Hm.
Qed.

Lemma preserves_modify (Inv : GUI -> Prop) (f : GUI -> GUI) :
  (forall g, Inv g -> Inv (f g)) -> preserves Inv (modify f).
Proof. intros H g Hg. now apply H. Qed.

Lemma preserves_gets {A} (Inv : GUI -> Prop) (f : GUI -> A) :
  preserves Inv (gets f).
Proof. intros g Hg. exact Hg. Qed.

Lemma preserves_ret {A} (Inv : GUI -> Prop) (a : A) : preserves Inv (ret a).
Proof. intros g Hg. exact Hg. Qed.

Lemma preserves_for_each {A} (Inv : GUI -> Prop) (xs : list A)
    (body : A -> M unit) :
  (forall x, preserves Inv (body x)) -> preserves Inv (for_each xs body).
Proof.
  intros H. induction xs as [|x xs IH]; simpl.
  - apply preserves_ret.
  - apply preserves_bind; [apply H | intros _; exact IH].
Qed.

Lemma flags_sound_insert (s : string) :
  preserves flags_sound (text_area_insert_end s).
Proof. intros g Hg. exact Hg. Qed.

Ltac by_probe :=
  match goal with
  | H : run ?inv = Completed _ |- exits_zero (run ?inv) = true =>
      rewrite H; simpl; assumption
  end.

(** The probes ask the world for nothing but [run]. *)
Ltac only_run :=
  try clear os_path_exists; try clear os_path_basename;
  try clear platform_system.

Ltac sound_step :=
  only_run;
  unfold flags_sound in *; simpl in *; rewrite ?in_app_iff; simpl;
  intuition (try discriminate; try congruence; try by_probe).

Ltac probe_cases c Hrun Hrc :=
  match goal with
  | |- context [run ?inv] =>
      destruct (run inv) as [c|[]] eqn:Hrun; simpl;
      [destruct (returncode c =? 0)%Z eqn:Hrc; simpl | | | | ]
  end.

Lemma flags_sound_check_windows_gcc : preserves flags_sound _check_windows_gcc.
Proof.
  intros g Hg. unfold _check_windows_gcc, try_except, bind, subprocess_run.
  probe_cases c Hrun Hrc; sound_step.
Qed.

Lemma flags_sound_check_windows_valgrind :
  preserves flags_sound _check_windows_valgrind.
Proof.
  intros g Hg. unfold _check_windows_valgrind, try_except, bind, subprocess_run.
  probe_cases c Hrun Hrc; sound_step.
Qed.

Lemma flags_sound_check_wsl_gcc :
  exits_zero (run wsl_status) = true ->
  preserves flags_sound _check_wsl_gcc.
Proof.
  intros Hw g Hg. unfold _check_wsl_gcc, try_except, bind, subprocess_run.
  probe_cases c Hrun Hrc; sound_step.
Qed.

Lemma flags_sound_check_wsl_valgrind :
  exits_zero (run wsl_status) = true ->
  preserves flags_sound _check_wsl_valgrind.
Proof.
  intros Hw g Hg. unfold _check_wsl_valgrind, try_except, bind, subprocess_run.
  probe_cases c Hrun Hrc; sound_step.
Qed.

Lemma flags_sound_check_wsl_tools : preserves flags_sound _check_wsl_tools.
Proof.
  intros g Hg. unfold _check_wsl_tools, try_except.
  unfold bind at 1. unfold subprocess_run at 1.
  destruct (run wsl_status) as [c|[]] eqn:Hrun; simpl;
    [destruct (returncode c =? 0)%Z eqn:Hrc | | | | ];
    try solve [sound_step].
  assert (Hw : exits_zero (run wsl_status) = true)
    by (rewrite Hrun; exact Hrc).
  assert (Hbody : preserves flags_sound
            (tools_status_append "✓ WSL available" ;;
             modify (set_wsl_available true) ;;
             _check_wsl_gcc ;; _check_wsl_valgrind)).
  { apply preserves_bind; [|intros _; apply preserves_bind; [|intros _]].
    - intros h Hh. clear Hg. sound_step.
    - intros h Hh. clear Hg. sound_step.
    - apply preserves_bind; [|intros _].
      + now apply flags_sound_check_wsl_gcc.
      + now apply flags_sound_check_wsl_valgrind. }
  match goal with
  | |- context [(?m ;; ?k) ?h] =>
      assert (Hh : flags_sound h) by (clear Hbody; sound_step);
      specialize (Hbody h Hh); destruct ((m ;; k) h) as [h' [[]|[]]]
  end; simpl in *; try exact Hbody; clear Hg Hh; sound_step.
Qed.

Lemma flags_sound_display : preserves flags_sound _display_tool_status.
Proof.
  unfold _display_tool_status.
  repeat first
    [ apply flags_sound_insert
    | apply preserves_gets
    | apply preserves_ret
    | apply preserves_for_each; intros ?
    | apply preserves_bind; [|intros ?]
    | match goal with |- preserves _ (if ?b then _ else _) => destruct b end ].
Qed.

(** After [check_tools], from any state, every capability shown as
    present was probed with success. *)
Lemma check_tools_flags_sound (g : GUI) : flags_sound (fst (check_tools g)).
Proof.
  unfold check_tools.
  assert (Hrest : preserves flags_sound
            (_check_windows_gcc ;; _check_windows_valgrind ;;
             _check_wsl_tools ;; _display_tool_status)).
  { apply preserves_bind; [apply flags_sound_check_windows_gcc | intros _].
    apply preserves_bind; [apply flags_sound_check_windows_valgrind | intros _].
    apply preserves_bind; [apply flags_sound_check_wsl_tools | intros _].
    apply flags_sound_display. }
  unfold bind at 1 2 3 4. simpl. apply Hrest.
  only_run. unfold flags_sound; simpl. intuition discriminate.
Qed.

(** C6: a version query that exits with a non-zero status, is not found
    or times out makes its check append the "not there" status line and
    return: nothing is raised and no capability flag is set.  After
    [check_tools] a flag is true, or a native tool is listed as available,
    only when its query ran and exited with status zero. *)
Theorem C6_probe_not_available :
  (forall inv line check,
      In (inv, line, check) probes ->
      probe_fails (run inv) = true ->
      forall g,
        check g = (set_tools_status ((tools_status g ++ [line])%list)
                     (set_spawned ((spawned g ++ [inv])%list) g),
                   Return tt))
  /\ (forall inv, In inv [gcc_version; valgrind_version; wsl_status;
                          wsl_gcc_version; wsl_valgrind_version] ->
                  timeout inv = 5%Z)
  /\ (forall g, flags_sound (fst (check_tools g)))
  /\ (forall r, exits_zero r = true <->
                exists c, r = Completed c /\ returncode c = 0%Z).
Proof.
  split; [|split; [|split]].
  - intros inv line check Hin Hfail g. unfold probes in Hin. simpl in Hin.
    destruct Hin as [E|[E|[E|[E|[E|[]]]]]]; injection E as <- <- <-;
      cbv [_check_windows_gcc _check_windows_valgrind _check_wsl_tools
           _check_wsl_gcc _check_wsl_valgrind try_except];
      unfold bind at 1; unfold subprocess_run at 1;
      match goal with
      | H : probe_fails (run ?inv) = true |- _ =>
          destruct (run inv) as [c|[]]; simpl in H; try discriminate H;
          try reflexivity;
          destruct (returncode c =? 0)%Z; try discriminate H; reflexivity
      end.
  - simpl. intros inv [<-|[<-|[<-|[<-|[<-|[]]]]]]; reflexivity.
  - exact check_tools_flags_sound.
  - intros [c|e]; simpl; split.
    + intros H. exists c. split; [reflexivity | now apply Z.eqb_eq].
    + intros (c' & [= <-] & H). now apply Z.eqb_eq.
    + discriminate.
    + intros (c' & [=] & _).
Qed.

(** ** Compilation *)

Lemma take_drop (n : nat) (s : string) : PyStr.take n s ++ PyStr.drop n s = s.
Proof.
  revert s; induction n as [|n IH]; intros [|c s]; simpl; try reflexivity.
  now rewrite IH.
Qed.

(** A path that ends in ".c" is its stem followed by ".c". *)
Lemma endswith_c_stem (file_path : string) :
  PyStr.endswith ".c" file_path = true ->
  PyStr.slice_to_minus2 file_path ++ ".c" = file_path
  /\ PyStr.truthy file_path = true.
Proof.
  unfold PyStr.endswith, PyStr.slice_to_minus2. simpl String.length.
  intros H. apply andb_prop in H as [Hlen Heq].
  apply String.eqb_eq in Heq. split.
  - rewrite <- Heq. apply take_drop.
  - destruct file_path; [discriminate | reflexivity].
Qed.

(** The path translation never raises. *)
Lemma windows_path_to_wsl_returns (windows_path : string) :
  _windows_path_to_wsl windows_path = Return (wsl_path_of windows_path).
Proof.
  unfold wsl_path_of, _windows_path_to_wsl.
  destruct (PyStr.replace backslash "/" windows_path) eqn:E; [reflexivity|].
  destruct (PyStr.str_in ":" (String a s)); reflexivity.
Qed.

Lemma compile_with_wsl_gcc_zero (file_path : string) (g : GUI) :
  exits_zero (run (wsl_compile_cmd
                     (PyStr.slice_to_minus2 (wsl_path_of file_path))
                     (wsl_path_of file_path))) = true ->
  exists g',
    _compile_with_wsl_gcc file_path g = (g', Return true)
    /\ process_entry g' = PyStr.slice_to_minus2 file_path
    /\ status_var g' = "Compilation successful (WSL)".
Proof.
  intros H. unfold _compile_with_wsl_gcc.
  unfold bind at 1. unfold text_area_insert_end at 1, modify at 1.
  unfold bind at 1, lift. rewrite windows_path_to_wsl_returns.
  unfold bind at 1, subprocess_run.
  destruct (run _) as [c|e]; simpl in H; [|discriminate].
  rewrite H. eexists. split; [reflexivity|].
  simpl. split; [apply append_empty_r | reflexivity].
Qed.

Lemma compile_with_wsl_gcc_nonzero (file_path : string) (g : GUI) :
  exits_nonzero (run (wsl_compile_cmd
                        (PyStr.slice_to_minus2 (wsl_path_of file_path))
                        (wsl_path_of file_path))) = true ->
  exists g',
    _compile_with_wsl_gcc file_path g = (g', Return false)
    /\ process_entry g' = process_entry g.
Proof.
  intros H. unfold _compile_with_wsl_gcc.
  unfold bind at 1. unfold text_area_insert_end at 1, modify at 1.
  unfold bind at 1, lift. rewrite windows_path_to_wsl_returns.
  unfold bind at 1, subprocess_run.
  destruct (run _) as [c|e]; simpl in H; [|discriminate].
  apply negb_true_iff in H. rewrite H. eexists. split; reflexivity.
Qed.

Lemma compile_with_windows_gcc_zero (file_path : string) (g : GUI) :
  let exe_name := if String.eqb platform_system "Windows"
                  then PyStr.slice_to_minus2 file_path ++ ".exe"
                  else PyStr.slice_to_minus2 file_path in
  exits_zero (run (windows_compile_cmd exe_name file_path)) = true ->
  exists g',
    _compile_with_windows_gcc file_path g = (g', Return tt)
    /\ process_entry g' = exe_name
    /\ status_var g' = "Compilation successful".
Proof.
  intros exe_name H. unfold _compile_with_windows_gcc. fold exe_name.
  unfold bind at 1. unfold text_area_insert_end at 1, modify at 1.
  unfold bind at 1, subprocess_run.
  destruct (run _) as [c|e]; simpl in H; [|discriminate].
  rewrite H. eexists. split; [reflexivity|].
  simpl. split; [apply append_empty_r | reflexivity].
Qed.

(** Running the monad's plumbing, leaving the methods folded.  States
    are evaluated innermost first, so that they stay one record deep; the
    fields of a state that is a variable are folded back afterwards. *)
Ltac refold_fields x :=
  fold (process_entry x); fold (text_area x); fold (status_var x);
  fold (wsl_available x); fold (wsl_gcc_available x);
  fold (wsl_valgrind_available x); fold (tools_status x);
  fold (dialogs x); fold (spawned x).

Ltac refold_fields_in x H :=
  fold (process_entry x) in H; fold (text_area x) in H;
  fold (status_var x) in H; fold (wsl_available x) in H;
  fold (wsl_gcc_available x) in H; fold (wsl_valgrind_available x) in H;
  fold (tools_status x) in H; fold (dialogs x) in H; fold (spawned x) in H.

Ltac refold :=
  repeat match goal with
         | x : GUI |- _ => progress refold_fields x
         end.

Ltac refold_in H :=
  repeat match goal with
         | x : GUI |- _ => progress refold_fields_in x H
         end.

Ltac step :=
  cbv beta iota delta
    [bind ret gets modify try_except lift raise
     status_var_set text_area_insert_end process_entry_get
     process_entry_replace messagebox tools_status_append
     process_entry text_area status_var wsl_available wsl_gcc_available
     wsl_valgrind_available tools_status dialogs spawned
     set_process_entry set_text_area set_status_var set_wsl_available
     set_wsl_gcc_available set_wsl_valgrind_available set_tools_status
     set_dialogs set_spawned fst snd negb];
  refold.

Ltac step_in H :=
  cbv beta iota delta
    [bind ret gets modify try_except lift raise
     status_var_set text_area_insert_end process_entry_get
     process_entry_replace messagebox tools_status_append
     process_entry text_area status_var wsl_available wsl_gcc_available
     wsl_valgrind_available tools_status dialogs spawned
     set_process_entry set_text_area set_status_var set_wsl_available
     set_wsl_gcc_available set_wsl_valgrind_available set_tools_status
     set_dialogs set_spawned fst snd negb] in H;
  refold_in H.

(** C7: for an entry that names an existing ".c" file, a compiler exit
    status of zero overwrites the entry with the path of the executable in
    the caller's own convention: the source path without its ".c" when WSL
    compiled it; when the native compiler did, the same followed by ".exe"
    on Windows and by nothing elsewhere. *)
Theorem C7_compile_success (g : GUI) :
  let file_path := PyStr.strip (process_entry g) in
  let stem := PyStr.slice_to_minus2 file_path in
  let exe_name :=
    if String.eqb platform_system "Windows" then stem ++ ".exe" else stem in
  let wsl_cmd :=
    wsl_compile_cmd (PyStr.slice_to_minus2 (wsl_path_of file_path))
      (wsl_path_of file_path) in
  PyStr.endswith ".c" file_path = true ->
  os_path_exists file_path = true ->
  stem ++ ".c" = file_path
  /\ (wsl_available g && wsl_gcc_available g = true ->
      exits_zero (run wsl_cmd) = true ->
      snd (compile_c_file g) = Return tt
      /\ process_entry (fst (compile_c_file g)) = stem
      /\ status_var (fst (compile_c_file g)) = "Compilation successful (WSL)")
  /\ (wsl_available g && wsl_gcc_available g = false
      \/ (wsl_available g && wsl_gcc_available g = true
          /\ exits_nonzero (run wsl_cmd) = true) ->
      exits_zero (run (windows_compile_cmd exe_name file_path)) = true ->
      snd (compile_c_file g) = Return tt
      /\ process_entry (fst (compile_c_file g)) = exe_name
      /\ status_var (fst (compile_c_file g)) = "Compilation successful").
Proof.
  intros file_path stem exe_name wsl_cmd He Hx.
  destruct (endswith_c_stem _ He) as [Hstem Ht].
  split; [exact Hstem|].
  assert (Hguard : forall A (a b c d : M A),
             (if negb (PyStr.truthy file_path) then a
              else if negb (PyStr.endswith ".c" file_path) then b
              else if negb (os_path_exists file_path) then c else d) = d).
  { intros. now rewrite Ht, He, Hx. }
  remember (compile_c_file g) as res eqn:Hres.
  unfold compile_c_file in Hres. unfold bind at 1, process_entry_get, gets in Hres.
  fold file_path in Hres. rewrite Hguard in Hres. step.
  step_in Hres.
  match type of Hres with
  | context [(if _ then _ else _) ?h] => set (g1 := h) in Hres
  end.
  split.
  - intros Hflags Hzero. rewrite Hflags in Hres. cbv beta iota in Hres.
    destruct (compile_with_wsl_gcc_zero file_path g1 Hzero)
      as (g' & Hrun & Hentry & Hstatus).
    rewrite Hrun in Hres. step_in Hres. subst res. auto.
  - intros Hnative Hzero.
    destruct (compile_with_windows_gcc_zero file_path) with (g := g1)
      as (g' & Hrun & Hentry & Hstatus); [exact Hzero|].
    destruct Hnative as [Hflags | [Hflags Hnz]]; rewrite Hflags in Hres;
      cbv beta iota in Hres.
    + rewrite Hrun in Hres. step_in Hres. subst res. auto.
    + destruct (compile_with_wsl_gcc_nonzero file_path g1 Hnz)
        as (g2 & Hrun2 & _).
      destruct (compile_with_windows_gcc_zero file_path) with (g := g2)
        as (g3 & Hrun3 & Hentry3 & Hstatus3); [exact Hzero|].
      rewrite Hrun2 in Hres. step_in Hres. rewrite Hrun3 in Hres.
      step_in Hres. subst res. auto.
Qed.

(** ** Memory analysis *)

Ltac norm_text :=
  step; rewrite <- ?app_assoc; cbn [app]; try reflexivity.

Lemma parse_valgrind_output_report (text : string) :
  exists report, writes (parse_valgrind_output text) report tt.
Proof.
  destruct (parse_valgrind_output_writes text) as (u & t & H & _). eauto.
Qed.

Lemma run_wsl_valgrind_completed (executable_path : string)
    (c : CompletedProcess) (report : list string) (g : GUI) :
  run (wsl_valgrind_cmd (wsl_path_of executable_path)) = Completed c ->
  writes (parse_valgrind_output (stderr c)) report tt ->
  _run_wsl_valgrind executable_path g
  = (set_status_var "Valgrind analysis complete (WSL)"
       (set_text_area
          (text_area g +++ ("Running Valgrind memory check (WSL)..." ++ nl)
          :: report)
          (set_spawned
             (spawned g ++ [wsl_valgrind_cmd (wsl_path_of executable_path)])%list
             g)),
     Return true).
Proof.
  intros Hrun Hw. unfold _run_wsl_valgrind.
  rewrite windows_path_to_wsl_returns. step. unfold subprocess_run.
  rewrite Hrun. rewrite Hw. step. norm_text.
Qed.

Lemma run_wsl_valgrind_raises (executable_path : string) (e : exn) (g : GUI) :
  run (wsl_valgrind_cmd (wsl_path_of executable_path)) = Raises e ->
  _run_wsl_valgrind executable_path g
  = (set_text_area
       (text_area g +++ ("Running Valgrind memory check (WSL)..." ++ nl)
          :: wsl_failure_lines e)
       (set_spawned
          (spawned g ++ [wsl_valgrind_cmd (wsl_path_of executable_path)])%list
          g),
     Return false).
Proof.
  intros Hrun. unfold _run_wsl_valgrind.
  rewrite windows_path_to_wsl_returns. step. unfold subprocess_run.
  rewrite Hrun. destruct e; norm_text.
Qed.

Lemma run_native_valgrind_completed (executable_path : string)
    (c : CompletedProcess) (report : list string) (g : GUI) :
  run (native_valgrind_cmd executable_path) = Completed c ->
  writes (parse_valgrind_output (stderr c)) report tt ->
  _run_native_valgrind executable_path g
  = (set_status_var "Valgrind analysis complete"
       (set_text_area
          (text_area g +++ ("Trying native Valgrind..." ++ nl)
          :: report)
          (set_spawned
             (spawned g ++ [native_valgrind_cmd executable_path])%list g)),
     Return true).
Proof.
  intros Hrun Hw. unfold _run_native_valgrind.
  step. unfold subprocess_run.
  rewrite Hrun. rewrite Hw. step. norm_text.
Qed.

Lemma run_native_valgrind_raises (executable_path : string) (e : exn) (g : GUI) :
  run (native_valgrind_cmd executable_path) = Raises e ->
  _run_native_valgrind executable_path g
  = (set_text_area
       (text_area g +++ ("Trying native Valgrind..." ++ nl)
          :: native_failure_lines e)
       (set_spawned
          (spawned g ++ [native_valgrind_cmd executable_path])%list g),
     Return false).
Proof.
  intros Hrun. unfold _run_native_valgrind.
  step. unfold subprocess_run.
  rewrite Hrun. destruct e; norm_text.
Qed.

(** C10: a checker run that completes, through WSL or natively, counts
    as a successful analysis whatever its exit status: its standard error
    is parsed, the status line is set and [True] is returned.  Neither the
    exit status nor the standard output enters the result. *)
Theorem C10_exit_status_ignored (executable_path : string)
    (rc : Z) (out err : string) (g : GUI) :
  exists report,
    writes (parse_valgrind_output err) report tt
    /\ timeout (wsl_valgrind_cmd (wsl_path_of executable_path)) = 30%Z
    /\ timeout (native_valgrind_cmd executable_path) = 30%Z
    /\ (run (wsl_valgrind_cmd (wsl_path_of executable_path)) = exits rc out err ->
        _run_wsl_valgrind executable_path g
        = (set_status_var "Valgrind analysis complete (WSL)"
             (set_text_area
                (text_area g
                   +++ ("Running Valgrind memory check (WSL)..." ++ nl)
                       :: report)
                (set_spawned
                   (spawned g
                      ++ [wsl_valgrind_cmd (wsl_path_of executable_path)])%list
                   g)),
           Return true))
    /\ (run (native_valgrind_cmd executable_path) = exits rc out err ->
        _run_native_valgrind executable_path g
        = (set_status_var "Valgrind analysis complete"
             (set_text_area
                (text_area g +++ ("Trying native Valgrind..." ++ nl)
          :: report)
                (set_spawned
                   (spawned g ++ [native_valgrind_cmd executable_path])%list
                   g)),
           Return true)).
Proof.
  destruct (parse_valgrind_output_report err) as [report Hw].
  exists report. split; [exact Hw|]. split; [reflexivity|].
  split; [reflexivity|]. split; intros Hrun.
  - now apply run_wsl_valgrind_completed with (c := {| returncode := rc;
      stdout := out; stderr := err |}).
  - now apply run_native_valgrind_completed with (c := {| returncode := rc;
      stdout := out; stderr := err |}).
Qed.

(** [basic_analysis] spawns the target once, never raises, and reports. *)
Lemma basic_analysis_outcome (executable_path : string) (g : GUI) :
  basic_analysis executable_path g
  = basic_analysis_result executable_path g.
Proof.
  unfold basic_analysis_result.
  unfold basic_analysis, basic_banner, no_leak_detection_note.
  cbn [for_each]. step. unfold subprocess_run.
  destruct (run (basic_cmd executable_path)) as [c|[]]; step;
    try solve [norm_text].
  destruct (returncode c =? 0)%Z, (PyStr.truthy (stdout c)),
    (PyStr.truthy (stderr c)); step; norm_text.
Qed.

Lemma basic_analysis_returns (executable_path : string) (g : GUI) :
  snd (basic_analysis executable_path g) = Return tt.
Proof.
  rewrite basic_analysis_outcome. unfold basic_analysis_result.
  destruct (run (basic_cmd executable_path)) as [c|[]]; reflexivity.
Qed.

Lemma basic_analysis_spawned (executable_path : string) (g : GUI) :
  spawned (fst (basic_analysis executable_path g))
  = spawned g +++ [basic_cmd executable_path].
Proof.
  rewrite basic_analysis_outcome. unfold basic_analysis_result.
  destruct (run (basic_cmd executable_path)) as [c|[]]; reflexivity.
Qed.

(** The state in which [analyze_memory] starts its cascade *)
Lemma analyze_memory_cascade (g : GUI) (g2 : GUI) (ran : bool) :
  let executable_path := PyStr.strip (process_entry g) in
  executable_path <> "" ->
  os_path_exists executable_path = true ->
  try_valgrind executable_path
    (set_text_area (text_area g +++ analysis_banner executable_path)
       (set_status_var "Analyzing memory..." g))
  = (g2, Return ran) ->
  analyze_memory g
  = if ran then (g2, Return tt) else basic_analysis executable_path g2.
Proof.
  intros executable_path Hne Hx Htry.
  assert (Ht : PyStr.truthy executable_path = true).
  { destruct executable_path; [congruence | reflexivity]. }
  unfold analyze_memory. unfold bind at 1, process_entry_get, gets.
  fold executable_path. rewrite Ht, Hx.
  step_in Htry. unfold analysis_banner in Htry.
  step. rewrite <- !app_assoc. cbn [app]. rewrite Htry.
  destruct ran; [reflexivity|].
  pose proof (basic_analysis_returns executable_path g2) as Hr.
  destruct (basic_analysis executable_path g2) as [g3 o]. simpl in Hr.
  now subst o.
Qed.

(** C9: with no checker through WSL and a native checker that cannot be
    run, the analysis runs the target itself, once, with a timeout of 10:
    it reports the exit status, the output and the errors and closes with
    the reminder that no leak detection took place.  A timeout or a failure
    to launch is reported and ends the analysis: nothing is raised and the
    target is not run again. *)
Theorem C9_basic_fallback (g : GUI) (e : exn) :
  let executable_path := PyStr.strip (process_entry g) in
  executable_path <> "" ->
  os_path_exists executable_path = true ->
  wsl_available g && wsl_valgrind_available g = false ->
  run (native_valgrind_cmd executable_path) = Raises e ->
  let g2 :=
    set_text_area
      (text_area g +++ analysis_banner executable_path
         +++ ("Trying native Valgrind..." ++ nl) :: native_failure_lines e)
      (set_spawned (spawned g +++ [native_valgrind_cmd executable_path])
         (set_status_var "Analyzing memory..." g)) in
  analyze_memory g = basic_analysis_result executable_path g2
  /\ basic_cmd executable_path
     = {| args := [executable_path]; shell := false; timeout := 10 |}
  /\ snd (analyze_memory g) = Return tt
  /\ spawned (fst (analyze_memory g))
     = spawned g +++ [native_valgrind_cmd executable_path;
                      basic_cmd executable_path]
  /\ match run (basic_cmd executable_path) with
     | Completed c =>
         status_var (fst (analyze_memory g))
         = "Basic analysis complete (no leak detection)"
         /\ exists before,
             text_area (fst (analyze_memory g))
             = before
                 +++ [ nl ++ "Exit code: " ++ PyStr.str_of_int (returncode c);
                       if (returncode c =? 0)%Z
                       then " (Success)" ++ nl else " (Error)" ++ nl ]
                 +++ (if PyStr.truthy (stdout c)
                      then [ nl ++ "Program output:" ++ nl ++ stdout c ++ nl ]
                      else [])
                 +++ (if PyStr.truthy (stderr c)
                      then [ nl ++ "Program errors:" ++ nl ++ stderr c ++ nl ]
                      else [])
                 +++ no_leak_detection_note
     | Raises (TimeoutExpired _) =>
         status_var (fst (analyze_memory g)) = "Execution timed out"
         /\ exists before,
             text_area (fst (analyze_memory g))
             = before
                 +++ [ nl ++ "⚠ Program execution timed out (10 seconds)" ++ nl;
                       "The program may be hanging or waiting for input." ++ nl ]
     | Raises e' =>
         status_var (fst (analyze_memory g)) = "Execution error"
         /\ exists before,
             text_area (fst (analyze_memory g))
             = before +++ [ nl ++ "✗ Execution error: " ++ str_of_exn e' ++ nl ]
     end.
Proof.
  intros executable_path Hne Hx Hflags Hrun g2.
  assert (Hcascade : analyze_memory g = basic_analysis executable_path g2).
  { apply (analyze_memory_cascade g g2 false Hne Hx).
    fold executable_path. unfold try_valgrind. step. rewrite Hflags.
    rewrite (run_native_valgrind_raises _ e) by exact Hrun.
    unfold g2. norm_text. }
  rewrite Hcascade, basic_analysis_returns, basic_analysis_spawned.
  rewrite basic_analysis_outcome.
  split; [reflexivity|]. split; [reflexivity|]. split; [reflexivity|].
  split; [unfold g2; norm_text|].
  unfold basic_analysis_result.
  destruct (run (basic_cmd executable_path)) as [c|[]];
    (split; [reflexivity|]); cbn [fst text_area set_status_var set_text_area];
    rewrite app_assoc; eauto.
Qed.

(** C4, as the code has it: with WSL and its checker available, the
    analysis runs the checker through WSL with a timeout of 30.  When the
    run completes, its standard error is parsed and the analysis returns.
    When it times out, and equally when it fails in any other way, the
    failure is reported and the analysis goes on with the basic analysis:
    the native checker is not tried. *)
Theorem C4_secondary_checker_cascade (g : GUI) :
  let executable_path := PyStr.strip (process_entry g) in
  let cmd := wsl_valgrind_cmd (wsl_path_of executable_path) in
  executable_path <> "" ->
  os_path_exists executable_path = true ->
  wsl_available g && wsl_valgrind_available g = true ->
  timeout cmd = 30%Z
  /\ ~ In (native_valgrind_cmd executable_path)
          [cmd; basic_cmd executable_path]
  /\ match run cmd with
     | Completed c =>
         exists report,
           writes (parse_valgrind_output (stderr c)) report tt
           /\ analyze_memory g
              = (set_status_var "Valgrind analysis complete (WSL)"
                   (set_text_area
                      (text_area g +++ analysis_banner executable_path
                         +++ ("Running Valgrind memory check (WSL)..." ++ nl)
                             :: report)
                      (set_spawned (spawned g +++ [cmd]) g)),
                 Return tt)
     | Raises e =>
         analyze_memory g
         = basic_analysis_result executable_path
             (set_text_area
                (text_area g +++ analysis_banner executable_path
                   +++ ("Running Valgrind memory check (WSL)..." ++ nl)
                       :: wsl_failure_lines e)
                (set_spawned (spawned g +++ [cmd])
                   (set_status_var "Analyzing memory..." g)))
         /\ snd (analyze_memory g) = Return tt
         /\ spawned (fst (analyze_memory g))
            = spawned g +++ [cmd; basic_cmd executable_path]
     end.
Proof.
  intros executable_path cmd Hne Hx Hflags.
  split; [reflexivity|]. split.
  { simpl. intros [H|[H|[]]]; discriminate H. }
  destruct (run cmd) as [c|e] eqn:Hrun.
  - destruct (parse_valgrind_output_report (stderr c)) as [report Hw].
    exists report. split; [exact Hw|].
    match goal with
    | |- _ = (?h, _) =>
        rewrite (analyze_memory_cascade g h true Hne Hx); [reflexivity|]
    end.
    fold executable_path. unfold try_valgrind. step. rewrite Hflags.
    rewrite (run_wsl_valgrind_completed _ c report) by assumption.
    norm_text.
  - match goal with
    | |- _ = basic_analysis_result _ ?h /\ _ =>
        assert (Hcascade : analyze_memory g = basic_analysis executable_path h)
    end.
    { apply (analyze_memory_cascade g _ false Hne Hx).
      fold executable_path. unfold try_valgrind. step. rewrite Hflags.
      rewrite (run_wsl_valgrind_raises _ e) by exact Hrun.
      norm_text. }
    rewrite Hcascade, basic_analysis_returns, basic_analysis_spawned.
    rewrite basic_analysis_outcome.
    split; [reflexivity|]. split; [reflexivity|]. norm_text.
Qed.

(** * Further properties *)

(** ** Path translation, on every path *)

Lemma str_in_char_append (c : ascii) (a b : string) :
  PyStr.str_in (String c "") (a ++ b)
  = PyStr.str_in (String c "") a || PyStr.str_in (String c "") b.
Proof.
  induction a as [|x a IH].
  - destruct b; reflexivity.
  - change (String x a ++ b) with (String x (a ++ b)).
    rewrite !str_in_char_cons, IH. now rewrite orb_assoc.
Qed.

Lemma str_in_char_drop (c : ascii) (n : nat) (s : string) :
  PyStr.str_in (String c "") s = false ->
  PyStr.str_in (String c "") (PyStr.drop n s) = false.
Proof.
  revert s; induction n as [|n IH]; intros [|x s] H; simpl PyStr.drop;
    try exact H.
  rewrite str_in_char_cons in H. apply orb_false_elim in H as [_ H].
  now apply IH.
Qed.

Lemma lower_not_backslash (c : ascii) :
  Ascii.eqb c backslash = false -> Ascii.eqb (PyStr.lower c) backslash = false.
Proof.
  destruct c as [[] [] [] [] [] [] [] []]; vm_compute; congruence.
Qed.

(** Whatever the path, its translation is computed without an exception
    and holds no backslash. *)
Theorem path_translation_total (windows_path : string) :
  exists wsl_path,
    _windows_path_to_wsl windows_path = Return wsl_path
    /\ PyStr.str_in (String backslash "") wsl_path = false.
Proof.
  exists (wsl_path_of windows_path).
  split; [apply windows_path_to_wsl_returns|].
  unfold wsl_path_of, _windows_path_to_wsl.
  pose proof (replace_no_backslash windows_path) as Hr.
  destruct (PyStr.replace backslash "/" windows_path) as [|c0 s] eqn:E.
  - reflexivity.
  - destruct (PyStr.str_in ":" (String c0 s)); [|exact Hr].
    rewrite str_in_char_cons in Hr. apply orb_false_elim in Hr as [Hc Hs].
    rewrite Ascii.eqb_sym in Hc.
    change ("/mnt/" ++ ?t) with
      (String "/" (String "m" (String "n" (String "t" (String "/" t))))).
    change (String (PyStr.lower c0) "" ++ ?t) with (String (PyStr.lower c0) t).
    rewrite !str_in_char_cons.
    rewrite (Ascii.eqb_sym backslash (PyStr.lower c0)),
      (lower_not_backslash _ Hc).
    change (PyStr.drop 2 (String c0 s)) with (PyStr.drop 1 s).
    now rewrite (str_in_char_drop _ 1 s Hs).
Qed.

Lemma replace_append (a b : ascii) (x y : string) :
  PyStr.replace a b (x ++ y) = PyStr.replace a b x ++ PyStr.replace a b y.
Proof. induction x as [|c x IH]; simpl; [reflexivity | now rewrite IH]. Qed.

Lemma slice_append_two (x : string) (a b : ascii) :
  PyStr.slice_to_minus2 (x ++ String a (String b "")) = x.
Proof.
  unfold PyStr.slice_to_minus2.
  assert (Hlen : (String.length (x ++ String a (String b "")) - 2
                  = String.length x)%nat).
  { induction x as [|c x IH]; [reflexivity|].
    simpl String.length. simpl String.length in IH.
    destruct (String.length (x ++ String a (String b ""))) as [|[|n]] eqn:E;
      simpl in *; try lia.
    - destruct x; discriminate.
    - destruct x as [|c1 [|c2 x]]; simpl in E; try discriminate; lia. }
  rewrite Hlen. clear Hlen.
  induction x as [|c x IH]; simpl; [reflexivity | now rewrite IH].
Qed.

(** Translating and dropping ".c" commute for a source path without a
    colon, or of four characters at least. *)
Lemma wsl_exe_is_translated_stem (file_path : string) :
  PyStr.endswith ".c" file_path = true ->
  PyStr.str_in ":" file_path = false \/ (4 <= String.length file_path)%nat ->
  wsl_path_of (PyStr.slice_to_minus2 file_path)
  = PyStr.slice_to_minus2 (wsl_path_of file_path).
Proof.
  intros He Hshape.
  destruct (endswith_c_stem _ He) as [Hstem _].
  set (stem := PyStr.slice_to_minus2 file_path) in *.
  rewrite <- Hstem in Hshape |- *. clear Hstem He.
  unfold wsl_path_of, _windows_path_to_wsl.
  rewrite replace_append. change (PyStr.replace backslash "/" ".c") with ".c".
  rewrite str_in_char_append.
  replace (PyStr.str_in ":" ".c") with false by reflexivity.
  rewrite orb_false_r.
  assert (Hcolon : PyStr.str_in ":" (PyStr.replace backslash "/" stem)
                   = PyStr.str_in ":" stem).
  { clear. induction stem as [|c s IH]; [reflexivity|].
    simpl PyStr.replace. rewrite !str_in_char_cons, IH.
    destruct (Ascii.eqb c backslash) eqn:E; [|reflexivity].
    apply Ascii.eqb_eq in E. subst c. reflexivity. }
  destruct (PyStr.str_in ":" (PyStr.replace backslash "/" stem)) eqn:Hin.
  - destruct Hshape as [Hno | Hlen].
    { rewrite str_in_char_append, <- Hcolon in Hno. discriminate Hno. }
    destruct stem as [|c0 [|c1 r]].
    + discriminate Hin.
    + simpl in Hlen. lia.
    + simpl PyStr.replace. cbn [append PyStr.drop].
      match goal with
      | |- ?l = _ => symmetry; exact (slice_append_two l "." "c")
      end.
  - destruct (PyStr.replace backslash "/" stem) as [|c0 s] eqn:E.
    + reflexivity.
    + symmetry. exact (slice_append_two (String c0 s) "." "c").
Qed.


(** ** What an action leaves alone *)

Section Keeps.

Variable R : GUI -> GUI -> Prop.
Hypothesis R_refl : forall g, R g g.
Hypothesis R_trans : forall a b c, R a b -> R b c -> R a c.

Lemma keeps_ret {A} (a : A) : keeps R (ret a).
Proof using R_refl. intros g. apply R_refl. Qed.

Lemma keeps_gets {A} (f : GUI -> A) : keeps R (gets f).
Proof using R_refl. intros g. apply R_refl. Qed.

Lemma keeps_lift {A} (o : outcome A) : keeps R (lift o).
Proof using R_refl. intros g. apply R_refl. Qed.

Lemma keeps_bind {A B} (m : M A) (k : A -> M B) :
  keeps R m -> (forall a, keeps R (k a)) -> keeps R (bind m k).
Proof using R_trans.
  intros Hm Hk g. unfold bind. specialize (Hm g).
  destruct (m g) as [g' [a|e]]; simpl in *; [|exact Hm].
  eapply R_trans; [exact Hm | apply Hk].
Qed.

Lemma keeps_try_except {A} (m : M A) (handler : exn -> option (M A)) :
  keeps R m -> (forall e h, handler e = Some h -> keeps R h) ->
  keeps R (try_except m handler).
Proof using R_trans.
  intros Hm Hh g. unfold try_except. specialize (Hm g).
  destruct (m g) as [g' [a|e]]; simpl in *; [exact Hm|].
  destruct (handler e) as [h|] eqn:E; [|exact Hm].
  eapply R_trans; [exact Hm | apply (Hh e h E)].
Qed.

Lemma keeps_for_each {A} (xs : list A) (body : A -> M unit) :
  (forall x, keeps R (body x)) -> keeps R (for_each xs body).
Proof using R_refl R_trans.
  intros H. induction xs as [|x xs IH]; simpl.
  - apply keeps_ret.
  - apply keeps_bind; [apply H | intros _; exact IH].
Qed.

End Keeps.

Lemma returns_ret {A} (a : A) : returns (ret a).
Proof. intros g. now exists a. Qed.

Lemma returns_modify (f : GUI -> GUI) : returns (modify f).
Proof. intros g. now exists tt. Qed.

Lemma returns_gets {A} (f : GUI -> A) : returns (gets f).
Proof. intros g. now exists (f g). Qed.

Lemma returns_bind {A B} (m : M A) (k : A -> M B) :
  returns m -> (forall a, returns (k a)) -> returns (bind m k).
Proof.
  intros Hm Hk g. unfold bind. destruct (Hm g) as [a Ha].
  destruct (m g) as [g' o]. simpl in Ha. subst o. apply Hk.
Qed.

(** A [try] whose handlers catch everything and do not raise themselves
    never raises, whatever its body does. *)
Lemma returns_try_except {A} (m : M A) (handler : exn -> option (M A)) :
  (forall e, exists h, handler e = Some h /\ returns h) ->
  returns (try_except m handler).
Proof.
  intros Hh g. unfold try_except.
  destruct (m g) as [g' [a|e]]; [now exists a|].
  destruct (Hh e) as (h & -> & Hr). apply Hr.
Qed.

Lemma action_frame_refl (g : GUI) : action_frame g g.
Proof.
  unfold action_frame. repeat split; exists []; now rewrite app_nil_r.
Qed.

Lemma action_frame_trans (a b c : GUI) :
  action_frame a b -> action_frame b c -> action_frame a c.
Proof.
  unfold action_frame.
  intros (H1 & H2 & H3 & H4 & (t1 & Ht1) & (d1 & Hd1) & (s1 & Hs1))
         (K1 & K2 & K3 & K4 & (t2 & Ht2) & (d2 & Hd2) & (s2 & Hs2)).
  repeat split; try congruence.
  - exists (t1 +++ t2). now rewrite Ht2, Ht1, app_assoc.
  - exists (d1 +++ d2). now rewrite Hd2, Hd1, app_assoc.
  - exists (s1 +++ s2). now rewrite Hs2, Hs1, app_assoc.
Qed.

Lemma analysis_frame_refl (g : GUI) : analysis_frame g g.
Proof. split; [apply action_frame_refl | reflexivity]. Qed.

Lemma analysis_frame_trans (a b c : GUI) :
  analysis_frame a b -> analysis_frame b c -> analysis_frame a c.
Proof.
  intros [H1 H2] [K1 K2]. split; [|congruence].
  eapply action_frame_trans; eassumption.
Qed.

Lemma probe_frame_refl (g : GUI) : probe_frame g g.
Proof.
  unfold probe_frame. repeat split; exists []; now rewrite app_nil_r.
Qed.

Lemma probe_frame_trans (a b c : GUI) :
  probe_frame a b -> probe_frame b c -> probe_frame a c.
Proof.
  unfold probe_frame.
  intros (H1 & H2 & H3 & (t1 & Ht1) & (s1 & Hs1))
         (K1 & K2 & K3 & (t2 & Ht2) & (s2 & Hs2)).
  repeat split; try congruence.
  - exists (t1 +++ t2). now rewrite Ht2, Ht1, app_assoc.
  - exists (s1 +++ s2). now rewrite Hs2, Hs1, app_assoc.
Qed.

(** One step that changes the state in place *)
Ltac frame_prim :=
  let g := fresh "g" in
  intros g;
  try match goal with
      | |- context [subprocess_run ?inv g] =>
          unfold subprocess_run; destruct (run inv)
      end;
  unfold action_frame, analysis_frame, probe_frame;
  step;
  repeat split;
  first [ reflexivity
        | eexists; reflexivity
        | exists []; now rewrite app_nil_r
        | eexists; rewrite <- ?app_assoc; reflexivity ].

Ltac handler_cases :=
  match goal with
  | H : _ = Some _ |- _ =>
      cbv beta delta [except_notfound_or_timeout] in H;
      match type of H with
      | match ?e with _ => _ end = Some _ =>
          destruct e; try discriminate H; injection H as <-
      | Some _ = Some _ => injection H as <-
      end
  end.

Ltac keeps_steps_with known refl trans :=
  repeat first
    [ solve [known]
    | apply (keeps_ret _ refl)
    | apply (keeps_gets _ refl)
    | apply (keeps_lift _ refl)
    | apply (keeps_for_each _ refl trans); intros ?
    | apply (keeps_bind _ trans); [|intros ?]
    | apply (keeps_try_except _ trans); [|intros ? ? ?; handler_cases]
    | match goal with
      | |- keeps _ (if ?b then _ else _) => destruct b
      | |- keeps _ (match ?o with Some _ => _ | None => _ end) => destruct o
      | |- keeps _ (let '(_, _) := ?p in _) => destruct p
      end
    | solve [frame_prim] ].

Ltac keeps_steps refl trans := keeps_steps_with fail refl trans.

Lemma writes_action_frame {A} (m : M A) chunks a :
  writes m chunks a -> keeps analysis_frame m.
Proof.
  intros Hw g. rewrite Hw. unfold analysis_frame, action_frame. step.
  repeat split; first [ eexists; reflexivity
                      | exists []; now rewrite app_nil_r ].
Qed.

Lemma parse_valgrind_output_frame (text : string) :
  keeps analysis_frame (parse_valgrind_output text).
Proof.
  destruct (parse_valgrind_output_report text) as [report Hw].
  exact (writes_action_frame _ _ _ Hw).
Qed.

Lemma basic_analysis_frame (executable_path : string) :
  keeps analysis_frame (basic_analysis executable_path).
Proof.
  unfold basic_analysis, no_leak_detection_note.
  keeps_steps analysis_frame_refl analysis_frame_trans.
Qed.

Lemma try_valgrind_frame (executable_path : string) :
  keeps analysis_frame (try_valgrind executable_path).
Proof.
  pose proof parse_valgrind_output_frame as Hparse.
  unfold try_valgrind, _run_wsl_valgrind, _run_native_valgrind.
  keeps_steps_with ltac:(apply Hparse)
    analysis_frame_refl analysis_frame_trans.
Qed.

(** An analysis never raises, never changes the entry, the capability
    flags or the tool lines, and only adds to the text area, the dialogs
    and the processes spawned. *)
Theorem analyze_memory_frame :
  returns analyze_memory /\ keeps analysis_frame analyze_memory.
Proof.
  split.
  - unfold analyze_memory.
    apply returns_bind; [apply returns_gets | intros entry].
    destruct (negb (PyStr.truthy (PyStr.strip entry)));
      [apply returns_modify|].
    destruct (negb (os_path_exists (PyStr.strip entry)));
      [apply returns_modify|].
    repeat (apply returns_bind; [apply returns_modify | intros _]).
    apply returns_try_except.
    intros e. eexists. split; [reflexivity|].
    repeat (apply returns_bind; [apply returns_modify | intros _]).
    apply returns_modify.
  - pose proof try_valgrind_frame as Htry.
    pose proof basic_analysis_frame as Hbasic.
    unfold analyze_memory.
    keeps_steps_with ltac:(first [apply Htry | apply Hbasic])
      analysis_frame_refl analysis_frame_trans.
Qed.

Lemma compile_with_wsl_gcc_frame (file_path : string) :
  keeps action_frame (_compile_with_wsl_gcc file_path).
Proof.
  unfold _compile_with_wsl_gcc.
  keeps_steps action_frame_refl action_frame_trans.
Qed.

Lemma compile_with_windows_gcc_frame (file_path : string) :
  keeps action_frame (_compile_with_windows_gcc file_path).
Proof.
  unfold _compile_with_windows_gcc.
  keeps_steps action_frame_refl action_frame_trans.
Qed.

(** A compilation never raises, never changes the capability flags or
    the tool lines, and only adds to the text area, the dialogs and the
    processes spawned. *)
Theorem compile_c_file_frame :
  returns compile_c_file /\ keeps action_frame compile_c_file.
Proof.
  split.
  - unfold compile_c_file.
    apply returns_bind; [apply returns_gets | intros entry].
    destruct (negb (PyStr.truthy (PyStr.strip entry)));
      [apply returns_modify|].
    destruct (negb (PyStr.endswith ".c" (PyStr.strip entry)));
      [apply returns_modify|].
    destruct (negb (os_path_exists (PyStr.strip entry)));
      [apply returns_modify|].
    repeat (apply returns_bind; [apply returns_modify | intros _]).
    apply returns_try_except.
    intros e. destruct e; eexists; (split; [reflexivity|]);
      repeat (apply returns_bind; [apply returns_modify | intros _]);
      apply returns_modify.
  - pose proof compile_with_wsl_gcc_frame as Hwsl.
    pose proof compile_with_windows_gcc_frame as Hwin.
    unfold compile_c_file.
    keeps_steps_with ltac:(first [apply Hwsl | apply Hwin])
      action_frame_refl action_frame_trans.
Qed.


(** ** The probes, whatever the world answers *)

Lemma uncaught_not_handled {A} (r : run_result) (e : exn) (h : M A) :
  uncaught r = Some e -> except_notfound_or_timeout h e = None.
Proof.
  destruct r as [c|[]]; simpl; intros [= <-]; reflexivity.
Qed.

Ltac probe_outcome :=
  intros; cbv [_check_windows_gcc _check_windows_valgrind _check_wsl_gcc
                 _check_wsl_valgrind];
  unfold probe_line, subprocess_run; step;
  match goal with
  | |- context [run ?inv] =>
      destruct (run inv) as [c|[]]; cbn [uncaught exits_zero];
      try reflexivity;
      destruct (returncode c =? 0)%Z; reflexivity
  end.

Lemma check_windows_gcc_outcome (g : GUI) :
  _check_windows_gcc g
  = match uncaught (run gcc_version) with
    | Some e => (set_spawned (spawned g +++ [gcc_version]) g, Raise e)
    | None =>
        (set_tools_status
           (tools_status g
              +++ [probe_line (run gcc_version)
                     "✓ GCC compiler available (Windows)"
                     "✗ GCC compiler not found (Windows)"])
           (set_spawned (spawned g +++ [gcc_version]) g),
         Return tt)
    end.
Proof. probe_outcome. Qed.

Lemma check_windows_valgrind_outcome (g : GUI) :
  _check_windows_valgrind g
  = match uncaught (run valgrind_version) with
    | Some e => (set_spawned (spawned g +++ [valgrind_version]) g, Raise e)
    | None =>
        (set_tools_status
           (tools_status g
              +++ [probe_line (run valgrind_version)
                     "✓ Valgrind available (Windows)"
                     "✗ Valgrind not available (Windows)"])
           (set_spawned (spawned g +++ [valgrind_version]) g),
         Return tt)
    end.
Proof. probe_outcome. Qed.

Lemma check_wsl_gcc_outcome (g : GUI) :
  _check_wsl_gcc g
  = match uncaught (run wsl_gcc_version) with
    | Some e => (set_spawned (spawned g +++ [wsl_gcc_version]) g, Raise e)
    | None =>
        (set_wsl_gcc_available
           (exits_zero (run wsl_gcc_version) || wsl_gcc_available g)
           (set_tools_status
              (tools_status g
                 +++ [probe_line (run wsl_gcc_version)
                        "✓ GCC available in WSL"
                        "✗ GCC not installed in WSL"])
              (set_spawned (spawned g +++ [wsl_gcc_version]) g)),
         Return tt)
    end.
Proof. destruct g. probe_outcome. Qed.

Lemma check_wsl_valgrind_outcome (g : GUI) :
  _check_wsl_valgrind g
  = match uncaught (run wsl_valgrind_version) with
    | Some e => (set_spawned (spawned g +++ [wsl_valgrind_version]) g, Raise e)
    | None =>
        (set_wsl_valgrind_available
           (exits_zero (run wsl_valgrind_version) || wsl_valgrind_available g)
           (set_tools_status
              (tools_status g
                 +++ [probe_line (run wsl_valgrind_version)
                        "✓ Valgrind available in WSL"
                        "✗ Valgrind not installed in WSL"])
              (set_spawned (spawned g +++ [wsl_valgrind_version]) g)),
         Return tt)
    end.
Proof. destruct g. probe_outcome. Qed.

(** The two checks inside WSL never raise what the enclosing [try] of
    [_check_wsl_tools] catches, so it lets their result through. *)
Lemma check_wsl_tools_outcome (g : GUI) :
  _check_wsl_tools g
  = match uncaught (run wsl_status) with
    | Some e => (set_spawned (spawned g +++ [wsl_status]) g, Raise e)
    | None =>
        if exits_zero (run wsl_status)
        then (_check_wsl_gcc ;; _check_wsl_valgrind)
               (set_wsl_available true
                  (set_tools_status (tools_status g +++ ["✓ WSL available"])
                     (set_spawned (spawned g +++ [wsl_status]) g)))
        else (set_tools_status (tools_status g +++ ["✗ WSL not available"])
                (set_spawned (spawned g +++ [wsl_status]) g),
              Return tt)
    end.
Proof.
  unfold _check_wsl_tools, try_except. unfold bind at 1.
  unfold subprocess_run at 1.
  destruct (run wsl_status) as [c|[]] eqn:Hrun; cbn [uncaught exits_zero];
    try reflexivity.
  destruct (returncode c =? 0)%Z; [|reflexivity].
  unfold bind at 1, tools_status_append at 1, modify at 1.
  unfold bind at 1, modify at 1.
  match goal with
  | |- context [(_check_wsl_gcc ;; _check_wsl_valgrind) ?h] => set (g1 := h)
  end.
  match goal with
  | |- _ = (_check_wsl_gcc ;; _check_wsl_valgrind) ?h =>
      change h with g1
  end.
  unfold bind. rewrite check_wsl_gcc_outcome.
  destruct (uncaught (run wsl_gcc_version)) as [e|] eqn:Eg.
  - now rewrite (uncaught_not_handled _ _ _ Eg).
  - rewrite check_wsl_valgrind_outcome.
    destruct (uncaught (run wsl_valgrind_version)) as [e|] eqn:Ev.
    + now rewrite (uncaught_not_handled _ _ _ Ev).
    + reflexivity.
Qed.

Lemma writes_for_each_map (f : string -> string) (xs : list string) :
  writes (for_each xs (fun s => text_area_insert_end (f s))) (map f xs) tt.
Proof.
  induction xs as [|x xs IH]; simpl.
  - apply writes_ret.
  - change (f x :: map f xs) with ([f x] +++ map f xs).
    eapply writes_bind; [apply writes_insert | exact IH].
Qed.

Lemma bind_writes {A B} (m : M A) (k : A -> M B) chunks a (g : GUI) :
  writes m chunks a ->
  bind m k g = k a (set_text_area (text_area g +++ chunks) g).
Proof. intros Hw. unfold bind. now rewrite Hw. Qed.

Lemma display_tool_status_outcome (g : GUI) :
  _display_tool_status g
  = (set_text_area
       (text_area g
          +++ tool_status_display (tools_status g) (wsl_available g)
                (wsl_gcc_available g) (wsl_valgrind_available g))
       g,
     Return tt).
Proof.
  unfold _display_tool_status, tool_status_display.
  do 3 (rewrite (bind_writes _ _ _ tt _ (writes_insert _)); cbv beta).
  unfold bind at 1, gets at 1. cbv beta iota.
  rewrite (bind_writes _ _ _ tt _ (writes_for_each_map _ _)). cbv beta.
  unfold bind at 1 2 3, gets. unfold setup_instructions. step.
  destruct (wsl_available g), (wsl_gcc_available g),
    (wsl_valgrind_available g);
    cbn [andb orb]; step; rewrite <- ?app_assoc; reflexivity.
Qed.


Ltac same_state :=
  unfold probe_state; step; cbn [app orb];
  rewrite ?orb_false_r, ?app_nil_r, <- ?app_assoc; cbn [app]; reflexivity.

(** [check_tools] does what [check_tools_result] reads off the world. *)
Lemma check_tools_outcome (g : GUI) : check_tools g = check_tools_result g.
Proof.
  unfold check_tools, check_tools_result.
  unfold bind at 1 2 3 4. unfold modify at 1 2 3 4. cbv beta iota.
  unfold bind at 1. rewrite check_windows_gcc_outcome.
  destruct (uncaught (run gcc_version)); [same_state|].
  unfold bind at 1. rewrite check_windows_valgrind_outcome.
  destruct (uncaught (run valgrind_version)); [same_state|].
  unfold bind at 1. rewrite check_wsl_tools_outcome.
  destruct (uncaught (run wsl_status)); [same_state|].
  destruct (exits_zero (run wsl_status)).
  - unfold bind at 1. rewrite check_wsl_gcc_outcome.
    destruct (uncaught (run wsl_gcc_version)); [same_state|].
    rewrite check_wsl_valgrind_outcome.
    destruct (uncaught (run wsl_valgrind_version)); [same_state|].
    rewrite display_tool_status_outcome. same_state.
  - rewrite display_tool_status_outcome. same_state.
Qed.

(** The parameters of [probe_state] that [check_tools] reaches are
    fixed by the world. *)
Lemma check_tools_by_world :
  exists lines wsl gcc valgrind invs shown result,
    forall g,
      check_tools g
      = (probe_state g lines wsl gcc valgrind invs shown, result).
Proof.
  unfold probe_state.
  destruct (uncaught (run gcc_version)) eqn:U1;
    [|destruct (uncaught (run valgrind_version)) eqn:U2;
      [|destruct (uncaught (run wsl_status)) eqn:U3;
        [|destruct (exits_zero (run wsl_status)) eqn:Z3;
          [destruct (uncaught (run wsl_gcc_version)) eqn:U4;
           [|destruct (uncaught (run wsl_valgrind_version)) eqn:U5]|]]]];
    do 7 eexists; intros g; rewrite check_tools_outcome;
    unfold check_tools_result;
    rewrite ?U1, ?U2, ?U3, ?Z3, ?U4, ?U5; reflexivity.
Qed.

(** What [check_tools] decides and displays depends on the world alone:
    the tool lines, the three flags, the probes run, the text shown and
    the exception raised, if any, are the same from every state, and the
    entry, the status line and the dialogs are not touched. *)
Theorem check_tools_world_only :
  exists lines wsl gcc valgrind invs shown result,
    forall g,
      check_tools g
      = (probe_state g lines wsl gcc valgrind invs shown, result).
Proof.
  destruct check_tools_by_world
    as (lines & wsl & gcc & valgrind & invs & shown & result & H).
  exists lines, wsl, gcc, valgrind, invs, shown, result.
  intros g. apply H.
Qed.

(** [clear_output] leaves in the text area exactly what [check_tools]
    displays, and nothing of what was there before: the same text that
    [check_tools] appends from any state.  When it returns, this is the
    display of the tool lines and of the flags it has just set; when a
    probe lets an exception through, the text area is left empty. *)
Theorem clear_output_forgets :
  exists shown,
    (forall g, text_area (fst (clear_output g)) = shown)
    /\ (forall g, text_area (fst (check_tools g)) = text_area g +++ shown)
    /\ (forall g,
          snd (clear_output g) = Return tt ->
          shown
          = tool_status_display
              (tools_status (fst (clear_output g)))
              (wsl_available (fst (clear_output g)))
              (wsl_gcc_available (fst (clear_output g)))
              (wsl_valgrind_available (fst (clear_output g))))
    /\ (forall g e, snd (clear_output g) = Raise e -> shown = [])
    /\ (forall g,
          snd (clear_output g) = snd (check_tools g)
          /\ tools_status (fst (clear_output g))
             = tools_status (fst (check_tools g))
          /\ spawned (fst (clear_output g)) = spawned (fst (check_tools g))).
Proof.
  assert (Hclear : forall g,
             clear_output g = check_tools_result (set_text_area [] g)).
  { intros g. unfold clear_output, bind, modify.
    apply check_tools_outcome. }
  unfold check_tools_result in Hclear.
  destruct (uncaught (run gcc_version)) eqn:U1;
    [|destruct (uncaught (run valgrind_version)) eqn:U2;
      [|destruct (uncaught (run wsl_status)) eqn:U3;
        [|destruct (exits_zero (run wsl_status)) eqn:Z3;
          [destruct (uncaught (run wsl_gcc_version)) eqn:U4;
           [|destruct (uncaught (run wsl_valgrind_version)) eqn:U5]|]]]];
    eexists;
    (split; [intros g; rewrite Hclear; unfold probe_state; step;
             cbn [app]; reflexivity|]);
    (split; [intros g; rewrite check_tools_outcome;
             unfold check_tools_result;
             rewrite ?U1, ?U2, ?U3, ?Z3, ?U4, ?U5;
             unfold probe_state; step; reflexivity|]);
    (split; [intros g; rewrite Hclear; unfold probe_state; step;
             first [discriminate | reflexivity]|]);
    (split; [intros g ?; rewrite Hclear; unfold probe_state; step;
             first [discriminate | reflexivity]|]);
    intros g; rewrite Hclear, check_tools_outcome;
    unfold check_tools_result;
    rewrite ?U1, ?U2, ?U3, ?Z3, ?U4, ?U5;
    unfold probe_state; step; repeat split; reflexivity.
Qed.

(** When no probe raises anything but "not found" or a timeout,
    [check_tools] returns, and each flag is on exactly when its query, and
    for the tools inside WSL the query of WSL itself, exited with zero. *)
Theorem check_tools_flags_exact (g : GUI) :
  Forall (fun inv => uncaught (run inv) = None)
    [gcc_version; valgrind_version; wsl_status; wsl_gcc_version;
     wsl_valgrind_version] ->
  snd (check_tools g) = Return tt
  /\ wsl_available (fst (check_tools g)) = exits_zero (run wsl_status)
  /\ wsl_gcc_available (fst (check_tools g))
     = exits_zero (run wsl_status) && exits_zero (run wsl_gcc_version)
  /\ wsl_valgrind_available (fst (check_tools g))
     = exits_zero (run wsl_status) && exits_zero (run wsl_valgrind_version)
  /\ spawned (fst (check_tools g))
     = spawned g
         +++ [gcc_version; valgrind_version; wsl_status]
         +++ (if exits_zero (run wsl_status)
              then [wsl_gcc_version; wsl_valgrind_version] else []).
Proof.
  intros H.
  inversion_clear H as [|? ? U1 H1]. inversion_clear H1 as [|? ? U2 H2].
  inversion_clear H2 as [|? ? U3 H3]. inversion_clear H3 as [|? ? U4 H4].
  inversion_clear H4 as [|? ? U5 _].
  rewrite check_tools_outcome. unfold check_tools_result.
  rewrite U1, U2, U3, U4, U5.
  destruct (exits_zero (run wsl_status)); unfold probe_state; step;
    repeat split; reflexivity.
Qed.

(** The setup instructions are shown exactly when WSL is there and gcc
    or valgrind is missing inside it. *)
Theorem setup_instructions_shown (g : GUI) :
  Forall (fun inv => uncaught (run inv) = None)
    [gcc_version; valgrind_version; wsl_status; wsl_gcc_version;
     wsl_valgrind_version] ->
  exists lines,
    text_area (fst (check_tools g))
    = text_area g
        +++ [ rule "=" ++ nl; "TOOL STATUS" ++ nl; rule "=" ++ nl ]
        +++ map (fun status => status ++ nl) lines
        +++ (if exits_zero (run wsl_status)
                && negb (exits_zero (run wsl_gcc_version)
                         && exits_zero (run wsl_valgrind_version))
             then setup_instructions else [])
        +++ [ nl ++ rule "=" ++ nl ++ nl ]
    /\ tools_status (fst (check_tools g)) = lines
    /\ List.length lines
       = (if exits_zero (run wsl_status) then 5 else 3)%nat.
Proof.
  intros H.
  inversion_clear H as [|? ? U1 H1]. inversion_clear H1 as [|? ? U2 H2].
  inversion_clear H2 as [|? ? U3 H3]. inversion_clear H3 as [|? ? U4 H4].
  inversion_clear H4 as [|? ? U5 _].
  rewrite check_tools_outcome. unfold check_tools_result.
  rewrite U1, U2, U3, U4, U5.
  destruct (exits_zero (run wsl_status)); eexists;
    unfold probe_state, tool_status_display; step.
  - split; [|split; reflexivity].
    destruct (exits_zero (run wsl_gcc_version)),
      (exits_zero (run wsl_valgrind_version)); reflexivity.
  - split; [|split; reflexivity]. reflexivity.
Qed.

(** An exception that a probe does not catch leaves [check_tools] at
    once: it is what the last version query run raised, nothing is
    displayed, and the flag of the last probe, valgrind inside WSL, is
    off. *)
Theorem check_tools_raises_silently (g : GUI) (e : exn) :
  snd (check_tools g) = Raise e ->
  text_area (fst (check_tools g)) = text_area g
  /\ (exists inv,
         In inv [gcc_version; valgrind_version; wsl_status; wsl_gcc_version;
                 wsl_valgrind_version]
         /\ run inv = Raises e
         /\ exists before,
             spawned (fst (check_tools g)) = spawned g +++ before +++ [inv])
  /\ wsl_valgrind_available (fst (check_tools g)) = false.
Proof.
  assert (Hun : forall r, uncaught r = Some e -> r = Raises e).
  { intros [c|[]]; simpl; congruence. }
  rewrite check_tools_outcome. unfold check_tools_result.
  destruct (uncaught (run gcc_version)) eqn:U1;
    [|destruct (uncaught (run valgrind_version)) eqn:U2;
      [|destruct (uncaught (run wsl_status)) eqn:U3;
        [|destruct (exits_zero (run wsl_status)) eqn:Z3;
          [destruct (uncaught (run wsl_gcc_version)) eqn:U4;
           [|destruct (uncaught (run wsl_valgrind_version)) eqn:U5]|]]]];
    unfold probe_state; step; intros [= ->];
    (split; [now rewrite app_nil_r|]);
    (split; [|reflexivity]).
  - exists gcc_version. repeat split; simpl; auto 7. now exists [].
  - exists valgrind_version. repeat split; simpl; auto 7.
    now exists [gcc_version].
  - exists wsl_status. repeat split; simpl; auto 7.
    now exists [gcc_version; valgrind_version].
  - exists wsl_gcc_version. repeat split; simpl; auto 8.
    now exists [gcc_version; valgrind_version; wsl_status].
  - exists wsl_valgrind_version. repeat split; simpl; auto 9.
    now exists [gcc_version; valgrind_version; wsl_status; wsl_gcc_version].
Qed.


(** ** Analysis, whatever the world answers *)

(** The guard of the analysis: an entry that is empty once stripped, or
    that names no existing file, gets one error dialog and nothing else
    happens. *)
Theorem analyze_memory_guard (g : GUI) :
  let executable_path := PyStr.strip (process_entry g) in
  executable_path = "" \/ os_path_exists executable_path = false ->
  exists d,
    analyze_memory g = (set_dialogs (dialogs g +++ [d]) g, Return tt)
    /\ kind d = showerror
    /\ ((executable_path = ""
         /\ message d = "Please select an executable file!")
        \/ (executable_path <> ""
            /\ message d = "File not found: " ++ executable_path)).
Proof.
  intros executable_path H.
  unfold analyze_memory, bind, process_entry_get, gets.
  fold executable_path.
  destruct (PyStr.truthy executable_path) eqn:Et; simpl negb; cbv iota.
  - assert (Hne : executable_path <> "").
    { intros E. rewrite E in Et. discriminate. }
    destruct (os_path_exists executable_path) eqn:Ex; simpl negb; cbv iota.
    + destruct H as [H|H]; congruence.
    + eexists. split; [reflexivity|]. split; [reflexivity|]. right. auto.
  - apply truthy_false in Et.
    eexists. split; [reflexivity|]. split; [reflexivity|]. left. auto.
Qed.

(** The state and the result [try_valgrind] reaches *)
Lemma try_valgrind_result (executable_path : string) (g : GUI) :
  exists g',
    try_valgrind executable_path g
    = (g', Return (completes (run (chosen_checker g executable_path))))
    /\ spawned g' = spawned g +++ [chosen_checker g executable_path]
    /\ process_entry g' = process_entry g
    /\ dialogs g' = dialogs g
    /\ status_var g'
       = if completes (run (chosen_checker g executable_path))
         then if wsl_available g && wsl_valgrind_available g
              then "Valgrind analysis complete (WSL)"
              else "Valgrind analysis complete"
         else status_var g.
Proof.
  unfold try_valgrind, chosen_checker. step.
  destruct (wsl_available g && wsl_valgrind_available g).
  - destruct (run (wsl_valgrind_cmd (wsl_path_of executable_path)))
      as [c|e] eqn:Hrun.
    + destruct (parse_valgrind_output_report (stderr c)) as [report Hw].
      rewrite (run_wsl_valgrind_completed _ c report) by assumption.
      eexists. split; [reflexivity|]. repeat split.
    + rewrite (run_wsl_valgrind_raises _ e) by assumption.
      eexists. split; [reflexivity|]. repeat split.
  - destruct (run (native_valgrind_cmd executable_path)) as [c|e] eqn:Hrun.
    + destruct (parse_valgrind_output_report (stderr c)) as [report Hw].
      rewrite (run_native_valgrind_completed _ c report) by assumption.
      eexists. split; [reflexivity|]. repeat split.
    + rewrite (run_native_valgrind_raises _ e) by assumption.
      eexists. split; [reflexivity|]. repeat split.
Qed.

(** [try_valgrind] runs exactly one checker, the one through WSL when
    both flags are on and the native one otherwise, never raises, and
    returns [True] exactly when that run completed. *)
Theorem try_valgrind_one_checker (executable_path : string) (g : GUI) :
  exists g',
    try_valgrind executable_path g
    = (g', Return (completes (run (chosen_checker g executable_path))))
    /\ spawned g' = spawned g +++ [chosen_checker g executable_path]
    /\ process_entry g' = process_entry g
    /\ dialogs g' = dialogs g
    /\ status_var g'
       = if completes (run (chosen_checker g executable_path))
         then if wsl_available g && wsl_valgrind_available g
              then "Valgrind analysis complete (WSL)"
              else "Valgrind analysis complete"
         else status_var g.
Proof.
  destruct (try_valgrind_result executable_path g)
    as (g' & Hrun & Hspawned & Hentry & Hdialogs & Hstatus).
  exists g'. split; [exact Hrun|]. split; [exact Hspawned|].
  split; [exact Hentry|]. split; [exact Hdialogs | exact Hstatus].
Qed.

(** For an entry that names an existing file, the analysis runs the
    chosen checker and, only when that run does not complete, the target
    itself.  It shows no dialog, and the status it ends with tells which
    of the five ways it went: "Analysis error" is never among them. *)
Theorem analyze_memory_outcomes (g : GUI) :
  let executable_path := PyStr.strip (process_entry g) in
  let checker := chosen_checker g executable_path in
  executable_path <> "" ->
  os_path_exists executable_path = true ->
  snd (analyze_memory g) = Return tt
  /\ spawned (fst (analyze_memory g))
     = spawned g
         +++ checker
             :: (if completes (run checker)
                 then [] else [basic_cmd executable_path])
  /\ dialogs (fst (analyze_memory g)) = dialogs g
  /\ status_var (fst (analyze_memory g))
     = if completes (run checker)
       then if wsl_available g && wsl_valgrind_available g
            then "Valgrind analysis complete (WSL)"
            else "Valgrind analysis complete"
       else match run (basic_cmd executable_path) with
            | Completed _ => "Basic analysis complete (no leak detection)"
            | Raises (TimeoutExpired _) => "Execution timed out"
            | Raises _ => "Execution error"
            end.
Proof.
  intros executable_path checker Hne Hx.
  set (g1 := set_text_area (text_area g +++ analysis_banner executable_path)
               (set_status_var "Analyzing memory..." g)).
  destruct (try_valgrind_result executable_path g1)
    as (g2 & Htry & Hspawned & _ & Hdialogs & Hstatus).
  change (chosen_checker g1 executable_path) with checker in *.
  change (wsl_available g1 && wsl_valgrind_available g1)
    with (wsl_available g && wsl_valgrind_available g) in *.
  change (spawned g1) with (spawned g) in *.
  change (dialogs g1) with (dialogs g) in *.
  rewrite (analyze_memory_cascade g g2 _ Hne Hx Htry).
  fold executable_path.
  destruct (completes (run checker)).
  - cbn [fst snd]. now rewrite Hspawned, Hdialogs, Hstatus.
  - rewrite basic_analysis_outcome. unfold basic_analysis_result.
    destruct (run (basic_cmd executable_path)) as [c|[]];
      cbn [fst snd]; step; rewrite Hspawned, Hdialogs, <- ?app_assoc;
      repeat split; reflexivity.
Qed.


(** ** Compilation, whatever the world answers *)

Lemma compile_with_windows_gcc_run (file_path : string) (g : GUI) :
  let exe_name := if String.eqb platform_system "Windows"
                  then PyStr.slice_to_minus2 file_path ++ ".exe"
                  else PyStr.slice_to_minus2 file_path in
  let cmd := windows_compile_cmd exe_name file_path in
  exists g',
    _compile_with_windows_gcc file_path g
    = (g', match run cmd with
           | Completed _ => Return tt
           | Raises e => Raise e
           end)
    /\ spawned g' = spawned g +++ [cmd]
    /\ dialogs g' = dialogs g
    /\ process_entry g'
       = (if exits_zero (run cmd) then exe_name else process_entry g)
    /\ status_var g'
       = match run cmd with
         | Completed c => if (returncode c =? 0)%Z
                          then "Compilation successful"
                          else "Compilation failed"
         | Raises _ => status_var g
         end.
Proof.
  intros exe_name cmd. unfold _compile_with_windows_gcc.
  unfold subprocess_run. step.
  fold exe_name. fold cmd. destruct (run cmd) as [c|e]; cbn [exits_zero].
  - destruct (returncode c =? 0)%Z; step; eexists;
      (split; [reflexivity|]); repeat split.
    apply append_empty_r.
  - eexists. split; [reflexivity|]. repeat split.
Qed.

Lemma compile_with_wsl_gcc_run (file_path : string) (g : GUI) :
  let cmd := wsl_compile_cmd (PyStr.slice_to_minus2 (wsl_path_of file_path))
               (wsl_path_of file_path) in
  exists g',
    _compile_with_wsl_gcc file_path g
    = (g', match run cmd with
           | Completed c => Return (returncode c =? 0)%Z
           | Raises e => Raise e
           end)
    /\ spawned g' = spawned g +++ [cmd]
    /\ dialogs g' = dialogs g
    /\ process_entry g'
       = (if exits_zero (run cmd)
          then PyStr.slice_to_minus2 file_path else process_entry g)
    /\ status_var g'
       = match run cmd with
         | Completed c => if (returncode c =? 0)%Z
                          then "Compilation successful (WSL)"
                          else "Compilation failed"
         | Raises _ => status_var g
         end.
Proof.
  intros cmd. unfold _compile_with_wsl_gcc.
  rewrite windows_path_to_wsl_returns. unfold subprocess_run. step.
  fold cmd. destruct (run cmd) as [c|e]; cbn [exits_zero].
  - destruct (returncode c =? 0)%Z; step; eexists;
      (split; [reflexivity|]); repeat split.
    apply append_empty_r.
  - eexists. split; [reflexivity|]. repeat split.
Qed.

Ltac leaf :=
  cbn [fst exits_zero completes app List.length
       spawned process_entry status_var dialogs];
  repeat match goal with
         | H : (returncode _ =? 0)%Z = _ |- _ => rewrite H
         end;
  rewrite ?length_app, <- ?app_assoc, ?app_nil_r;
  cbn [app List.length];
  try (repeat split; first [reflexivity | assumption | lia]).

(** For an entry that names an existing ".c" file, the native compiler
    is run exactly when WSL has no gcc or the compile through WSL exits
    with a status other than zero: a compile through WSL that is not
    found or times out ends the compilation.  The entry is overwritten
    only when the last compiler run exits with zero; otherwise the status
    says how it failed and, when the run raised, one error dialog is
    shown. *)
Theorem compile_c_file_outcomes (g : GUI) :
  let file_path := PyStr.strip (process_entry g) in
  let stem := PyStr.slice_to_minus2 file_path in
  let exe_name :=
    if String.eqb platform_system "Windows" then stem ++ ".exe" else stem in
  let wsl_cmd :=
    wsl_compile_cmd (PyStr.slice_to_minus2 (wsl_path_of file_path))
      (wsl_path_of file_path) in
  let native_cmd := windows_compile_cmd exe_name file_path in
  let through_wsl := wsl_available g && wsl_gcc_available g in
  let falls_back := negb through_wsl || exits_nonzero (run wsl_cmd) in
  let last_run := if falls_back then run native_cmd else run wsl_cmd in
  PyStr.endswith ".c" file_path = true ->
  os_path_exists file_path = true ->
  spawned (fst (compile_c_file g))
  = spawned g
      +++ (if through_wsl then [wsl_cmd] else [])
      +++ (if falls_back then [native_cmd] else [])
  /\ process_entry (fst (compile_c_file g))
     = (if exits_zero last_run
        then if falls_back then exe_name else stem
        else process_entry g)
  /\ status_var (fst (compile_c_file g))
     = match last_run with
       | Completed c =>
           if (returncode c =? 0)%Z
           then if falls_back
                then "Compilation successful"
                else "Compilation successful (WSL)"
           else "Compilation failed"
       | Raises (FileNotFoundError _) => "GCC not found"
       | Raises _ => "Compilation error"
       end
  /\ List.length (dialogs (fst (compile_c_file g)))
     = (List.length (dialogs g) + if completes last_run then 0 else 1)%nat.
Proof.
  intros file_path stem exe_name wsl_cmd native_cmd through_wsl falls_back
    last_run He Hx.
  destruct (endswith_c_stem _ He) as [_ Ht].
  assert (Hguard : forall A (a b c d : M A),
             (if negb (PyStr.truthy file_path) then a
              else if negb (PyStr.endswith ".c" file_path) then b
              else if negb (os_path_exists file_path) then c else d) = d).
  { intros. now rewrite Ht, He, Hx. }
  remember (compile_c_file g) as res eqn:Hres.
  unfold compile_c_file in Hres.
  unfold bind at 1, process_entry_get, gets in Hres.
  fold file_path in Hres. rewrite Hguard in Hres. step_in Hres.
  match type of Hres with
  | context [(if _ then _ else _) ?h] => set (g1 := h) in Hres
  end.
  fold through_wsl in Hres.
  destruct (compile_with_windows_gcc_run file_path g1)
    as (gn & Hn & Hn_spawned & Hn_dialogs & Hn_entry & Hn_status).
  destruct (compile_with_wsl_gcc_run file_path g1)
    as (gw & Hw & Hw_spawned & Hw_dialogs & Hw_entry & Hw_status).
  fold stem exe_name native_cmd in Hn, Hn_spawned, Hn_entry, Hn_status.
  fold stem wsl_cmd in Hw, Hw_spawned, Hw_entry, Hw_status.
  change (spawned g1) with (spawned g) in *.
  change (dialogs g1) with (dialogs g) in *.
  change (process_entry g1) with (process_entry g) in *.
  change (status_var g1) with "Compiling..." in *.
  subst falls_back last_run.
  destruct through_wsl; cbn [negb orb] in *; cbv beta iota in Hres.
  - rewrite Hw in Hres.
    destruct (run wsl_cmd) as [c|e] eqn:Hrun;
      cbn [exits_nonzero exits_zero] in *.
    + destruct (returncode c =? 0)%Z eqn:Hrc; cbn [negb] in *;
        step_in Hres.
      * subst res. leaf. rewrite Hw_spawned, Hw_entry, Hw_status, Hw_dialogs.
        leaf.
      * destruct (compile_with_windows_gcc_run file_path gw)
          as (gn2 & Hn2 & Hn2_spawned & Hn2_dialogs & Hn2_entry & Hn2_status).
        fold stem exe_name native_cmd
          in Hn2, Hn2_spawned, Hn2_entry, Hn2_status.
        rewrite Hn2 in Hres.
        destruct (run native_cmd) as [c2|e2] eqn:Hrun2;
          cbn [exits_zero] in *.
        -- step_in Hres. subst res. leaf.
           rewrite Hn2_spawned, Hn2_entry, Hn2_status, Hn2_dialogs,
             Hw_spawned, Hw_entry, Hw_dialogs.
           destruct (returncode c2 =? 0)%Z; leaf.
        -- destruct e2; step_in Hres; subst res; leaf;
             rewrite ?Hn2_spawned, ?Hn2_entry, ?Hn2_dialogs,
               ?Hw_spawned, ?Hw_entry, ?Hw_dialogs; leaf.
    + destruct e; step_in Hres; subst res; leaf;
        rewrite ?Hw_spawned, ?Hw_entry, ?Hw_dialogs; leaf.
  - rewrite Hn in Hres.
    destruct (run native_cmd) as [c|e] eqn:Hrun; cbn [exits_zero] in *.
    + step_in Hres. subst res. leaf.
      rewrite Hn_spawned, Hn_entry, Hn_status, Hn_dialogs.
      destruct (returncode c =? 0)%Z; leaf.
    + destruct e; step_in Hres; subst res; leaf;
        rewrite ?Hn_spawned, ?Hn_entry, ?Hn_dialogs; leaf.
Qed.


(** ** What the parser shows of a match *)

Lemma length_append (a b : string) :
  String.length (a ++ b) = (String.length a + String.length b)%nat.
Proof. induction a as [|c a IH]; simpl; [reflexivity | now rewrite IH]. Qed.

(** [.*] is greedy: no occurrence of the trailing literal further along
    the same line is passed over. *)
Lemma dotstar_then_longest (suf s m : string) :
  Re.dotstar_then suf s = Some m ->
  forall body' after',
    s = body' ++ suf ++ after' -> no_newline body' = true ->
    (String.length body' + String.length suf <= String.length m)%nat.
Proof.
  revert m; induction s as [|c s IH]; intros m Hm body' after' Hs Hb.
  - destruct body'; [|discriminate Hs].
    destruct (dotstar_then_sound _ _ _ Hm) as (b & a & -> & _ & _).
    rewrite length_append. simpl. lia.
  - destruct body' as [|c' body'].
    + destruct (dotstar_then_sound _ _ _ Hm) as (b & a & -> & _ & _).
      rewrite length_append. simpl. lia.
    + simpl in Hs. injection Hs as <- Hs.
      simpl in Hb. apply andb_prop in Hb as [Hc Hb].
      apply negb_true_iff in Hc.
      simpl in Hm. rewrite Hc in Hm.
      destruct (dotstar_then_complete suf body' after' Hb) as [m' Hm'].
      rewrite <- Hs in Hm'. rewrite Hm' in Hm. injection Hm as <-.
      specialize (IH m' Hm' body' after' Hs Hb). simpl. lia.
Qed.

(** [re.search] returns the leftmost match. *)
Lemma search_leftmost (pre suf text m : string) :
  Re.search pre suf text = Some m ->
  exists before body after,
    m = pre ++ body ++ suf
    /\ text = before ++ pre ++ body ++ suf ++ after
    /\ no_newline body = true
    /\ (forall before' body' after',
           text = before' ++ pre ++ body' ++ suf ++ after' ->
           no_newline body' = true ->
           (String.length before <= String.length before')%nat)
    /\ (forall body' after',
           text = before ++ pre ++ body' ++ suf ++ after' ->
           no_newline body' = true ->
           (String.length body' <= String.length body)%nat).
Proof.
  assert (Hhere : forall s m0, Re.match_here pre suf s = Some m0 ->
            exists body after,
              m0 = pre ++ body ++ suf /\ s = pre ++ body ++ suf ++ after
              /\ no_newline body = true
              /\ forall body' after',
                  s = pre ++ body' ++ suf ++ after' ->
                  no_newline body' = true ->
                  (String.length body' <= String.length body)%nat).
  { intros s m0. unfold Re.match_here.
    destruct (PyStr.startswith pre s) eqn:E; [|discriminate].
    apply startswith_inv in E as [t ->]. rewrite drop_length_append.
    destruct (Re.dotstar_then suf t) as [m'|] eqn:Em; [|discriminate].
    intros [= <-].
    destruct (dotstar_then_sound _ _ _ Em) as (body & after & Hm' & Ht & Hb).
    exists body, after. subst m'. repeat split; auto; [now subst t|].
    intros body' after' Hs Hb'.
    assert (Ht' : t = body' ++ suf ++ after').
    { clear - Hs. induction pre as [|a p IHp]; simpl in Hs; [exact Hs|].
      injection Hs as Hs. auto. }
    pose proof (dotstar_then_longest _ _ _ Em body' after' Ht' Hb') as Hl.
    rewrite length_append in Hl. lia. }
  assert (Hnone : forall s, Re.match_here pre suf s = None ->
            forall body' after',
              s = pre ++ body' ++ suf ++ after' -> no_newline body' = true ->
              False).
  { intros s Hn body' after' Hs Hb. unfold Re.match_here in Hn.
    rewrite Hs, startswith_append, drop_length_append in Hn.
    destruct (dotstar_then_complete suf body' after' Hb) as [m' Hm'].
    rewrite Hm' in Hn. discriminate. }
  revert m; induction text as [|c text IH]; intros m; simpl.
  - destruct (Re.match_here pre suf "") as [m'|] eqn:E; [|discriminate].
    intros [= <-].
    destruct (Hhere _ _ E) as (body & after & Hm & Hs & Hb & Hlong).
    exists "", body, after. repeat split; auto. simpl; lia.
  - destruct (Re.match_here pre suf (String c text)) as [m'|] eqn:E.
    + intros [= <-].
      destruct (Hhere _ _ E) as (body & after & Hm & Hs & Hb & Hlong).
      exists "", body, after. repeat split; auto. simpl; lia.
    + intros H.
      destruct (IH _ H) as (bf & body & after & Hm & Hs & Hb & Hleft & Hlong).
      exists (String c bf), body, after. repeat split; auto.
      * simpl. now rewrite <- Hs.
      * intros before' body' after' Hs' Hb'.
        destruct before' as [|c' before'].
        -- exfalso. exact (Hnone _ E body' after' Hs' Hb').
        -- simpl in Hs'. injection Hs' as _ Hs'.
           specialize (Hleft before' body' after' Hs' Hb'). simpl. lia.
      * intros body' after' Hs' Hb'. simpl in Hs'. injection Hs' as Hs'.
        exact (Hlong body' after' Hs' Hb').
Qed.

(** The usage line is shown exactly when "total heap usage: ", anything
    and " bytes allocated" occur on one line of the text; it is then the
    first such occurrence, taken up to the last " bytes allocated" of its
    line. *)
Theorem memory_usage_first_and_longest (text : string) :
  exists usage,
    writes (show_memory_usage text) usage tt
    /\ ((~ pattern_occurs memory_summary_pattern text /\ usage = [])
        \/ exists before body after,
            usage = [ "Memory usage: total heap usage: " ++ body
                        ++ " bytes allocated" ++ nl ]
            /\ text = before ++ "total heap usage: " ++ body
                        ++ " bytes allocated" ++ after
            /\ no_newline body = true
            /\ (forall before' body' after',
                   text = before' ++ "total heap usage: " ++ body'
                            ++ " bytes allocated" ++ after' ->
                   no_newline body' = true ->
                   (String.length before <= String.length before')%nat)
            /\ (forall body' after',
                   text = before ++ "total heap usage: " ++ body'
                            ++ " bytes allocated" ++ after' ->
                   no_newline body' = true ->
                   (String.length body' <= String.length body)%nat)).
Proof.
  eexists. split; [apply show_memory_usage_writes|].
  unfold re_search, memory_summary_pattern; simpl lit_before; simpl lit_after.
  destruct (Re.search "total heap usage: " " bytes allocated" text)
    as [m|] eqn:E.
  - right.
    destruct (search_leftmost _ _ _ _ E)
      as (bf & body & af & -> & Ht & Hb & Hleft & Hlong).
    exists bf, body, af. repeat split; auto.
    now rewrite !append_assoc.
  - left. split; [|reflexivity].
    intros Ho. apply search_iff in Ho as [m Hm].
    unfold pattern_occurs in *. simpl in Hm. congruence.
Qed.


Lemma string_forall_append (P : ascii -> bool) (a b : string) :
  string_forall P (a ++ b) = string_forall P a && string_forall P b.
Proof.
  induction a as [|c a IH]; simpl; [reflexivity|].
  now rewrite IH, andb_assoc.
Qed.

Lemma no_newline_forall (s : string) :
  no_newline s = string_forall (fun c => negb (Ascii.eqb c Re.newline)) s.
Proof. induction s as [|c s IH]; simpl; [reflexivity | now rewrite IH]. Qed.

Lemma lstrip_forall (P : ascii -> bool) (s : string) :
  string_forall P s = true -> string_forall P (PyStr.lstrip s) = true.
Proof.
  induction s as [|c s IH]; simpl; [reflexivity|].
  intros H. destruct (PyStr.isspace c); [|exact H].
  apply andb_prop in H as [_ H]. now apply IH.
Qed.

Lemma rstrip_forall (P : ascii -> bool) (s : string) :
  string_forall P s = true -> string_forall P (PyStr.rstrip s) = true.
Proof.
  induction s as [|c s IH]; simpl; [reflexivity|].
  intros H. apply andb_prop in H as [Hc H]. specialize (IH H).
  destruct (PyStr.rstrip s) as [|d r].
  - destruct (PyStr.isspace c); simpl; [reflexivity | now rewrite Hc].
  - simpl in *. now rewrite Hc, IH.
Qed.

Lemma lstrip_first (s : string) (c : ascii) :
  first_char (PyStr.lstrip s) = Some c -> PyStr.isspace c = false.
Proof.
  induction s as [|x s IH]; simpl; [discriminate|].
  destruct (PyStr.isspace x) eqn:E; [exact IH|].
  simpl. intros [= <-]. exact E.
Qed.

Lemma rstrip_first (s : string) (c : ascii) :
  first_char (PyStr.rstrip s) = Some c -> first_char s = Some c.
Proof.
  destruct s as [|x s]; simpl; [discriminate|].
  destruct (PyStr.rstrip s); [destruct (PyStr.isspace x)|]; simpl; congruence.
Qed.

Lemma rstrip_last (s : string) (c : ascii) :
  last_char (PyStr.rstrip s) = Some c -> PyStr.isspace c = false.
Proof.
  induction s as [|x s IH]; simpl; [discriminate|].
  destruct (PyStr.rstrip s) as [|d r].
  - destruct (PyStr.isspace x) eqn:E; simpl; [discriminate|].
    intros [= <-]. exact E.
  - exact IH.
Qed.

(** What [strip] returns neither starts nor ends with white space. *)
Lemma strip_trimmed (s : string) (c : ascii) :
  first_char (PyStr.strip s) = Some c \/ last_char (PyStr.strip s) = Some c ->
  PyStr.isspace c = false.
Proof.
  unfold PyStr.strip. intros [H|H].
  - apply rstrip_first in H. now apply lstrip_first in H.
  - now apply rstrip_last in H.
Qed.

Lemma split_head (sep : ascii) (s : string) :
  exists piece rest,
    PyStr.split sep s = piece :: rest
    /\ string_forall (fun c => negb (Ascii.eqb c sep)) piece = true
    /\ forall P, string_forall P s = true -> string_forall P piece = true.
Proof.
  induction s as [|c s (piece & rest & Hs & Hsep & Hsub)]; simpl.
  - exists "", []. repeat split.
  - destruct (Ascii.eqb c sep) eqn:E.
    + exists "", (PyStr.split sep s). repeat split.
    + rewrite Hs. exists (String c piece), rest. simpl. rewrite E, Hsep.
      repeat split. intros P H. apply andb_prop in H as [Hc H].
      now rewrite Hc, (Hsub P H).
Qed.

Lemma split_at_separator (sep : ascii) (label rest : string) :
  string_forall (fun c => negb (Ascii.eqb c sep)) label = true ->
  PyStr.split sep (label ++ String sep rest) = label :: PyStr.split sep rest.
Proof.
  induction label as [|c label IH]; simpl.
  - now rewrite Ascii.eqb_refl.
  - intros H. apply andb_prop in H as [Hc H]. apply negb_true_iff in Hc.
    now rewrite Hc, (IH H).
Qed.

(** A leak row shows the label and, trimmed, what the matched fragment
    holds between the colon of its own label and the next colon, or its
    end " blocks" when there is none: the value has no colon and no
    newline, and white space neither at its start nor at its end. *)
Theorem leak_field_value (text : string) (pl : pattern * string)
    (group : string) :
  In pl leak_patterns ->
  re_search (fst pl) text = Some group ->
  exists body value,
    group = lit_before (fst pl) ++ body ++ " blocks"
    /\ no_newline body = true
    /\ value
       = PyStr.strip (hd "" (PyStr.split ":" (String " " (body ++ " blocks"))))
    /\ writes (show_leak_pattern text pl)
         [ "  " ++ snd pl ++ ": " ++ value ++ nl ] tt
    /\ string_forall plain_char value = true
    /\ (forall c, first_char value = Some c \/ last_char value = Some c ->
                  PyStr.isspace c = false)
    /\ (string_forall (fun c => negb (Ascii.eqb c ":")) body = true ->
        value = PyStr.strip (body ++ " blocks")).
Proof.
  intros Hin Hs.
  destruct (search_sound _ _ _ _ Hs) as (bf & body & af & Hg & _ & Hb).
  assert (Hafter : lit_after (fst pl) = " blocks").
  { unfold leak_patterns in Hin. simpl in Hin.
    destruct Hin as [<-|[<-|[<-|[<-|[<-|[]]]]]]; reflexivity. }
  rewrite Hafter in Hg.
  exists body. eexists. split; [exact Hg|]. split; [exact Hb|].
  split; [reflexivity|].
  destruct (split_head ":" (String " " (body ++ " blocks")))
    as (piece & rest & Hsplit & Hnosep & Hsub).
  assert (Hnth : nth_error (PyStr.split ":" group) 1 = Some piece
                 /\ hd "" (PyStr.split ":" (String " " (body ++ " blocks")))
                    = piece).
  { rewrite Hsplit. split; [|reflexivity]. rewrite Hg.
    unfold leak_patterns in Hin. simpl in Hin.
    destruct Hin as [<-|[<-|[<-|[<-|[<-|[]]]]]]; simpl lit_before;
      match goal with
      | |- context [PyStr.split ":" (?pre ++ ?m)] =>
          let lbl := eval cbv in (PyStr.slice_to_minus2 pre) in
          change (pre ++ m) with (lbl ++ String ":" (String " " m))
      end;
      rewrite split_at_separator by reflexivity; rewrite Hsplit;
      reflexivity. }
  destruct Hnth as [Hnth Hhd]. rewrite Hhd.
  split; [|split; [|split]].
  - unfold show_leak_pattern. destruct pl as [p label]. simpl in *.
    rewrite Hs, Hnth. apply writes_insert.
  - unfold PyStr.strip. apply rstrip_forall, lstrip_forall.
    assert (Hnl : string_forall (fun c => negb (Ascii.eqb c Re.newline)) piece
                  = true).
    { apply Hsub. simpl. rewrite string_forall_append.
      rewrite <- no_newline_forall, Hb. reflexivity. }
    clear - Hnosep Hnl. unfold plain_char.
    induction piece as [|c piece IH]; simpl in *; [reflexivity|].
    apply andb_prop in Hnosep as [H1 H2]. apply andb_prop in Hnl as [H3 H4].
    now rewrite H1, H3, IH.
  - intros c. apply strip_trimmed.
  - intros Hbody.
    assert (Hall : string_forall (fun c => negb (Ascii.eqb c ":"))
                     (String " " (body ++ " blocks")) = true).
    { simpl. rewrite string_forall_append, Hbody. reflexivity. }
    clear - Hall Hsplit.
    assert (Hone : forall s,
               string_forall (fun c => negb (Ascii.eqb c ":")) s = true ->
               PyStr.split ":" s = [s]).
    { induction s as [|c s IH]; simpl; [reflexivity|].
      intros H. apply andb_prop in H as [Hc H]. apply negb_true_iff in Hc.
      now rewrite Hc, (IH H). }
    rewrite (Hone _ Hall) in Hsplit. injection Hsplit as <- _.
    unfold PyStr.strip. reflexivity.
Qed.


(** ** From a compile to the analysis that follows *)

(** The state a successful compile through WSL leaves *)
Lemma compile_through_wsl_state (g : GUI) :
  let file_path := PyStr.strip (process_entry g) in
  let wsl_cmd :=
    wsl_compile_cmd (PyStr.slice_to_minus2 (wsl_path_of file_path))
      (wsl_path_of file_path) in
  PyStr.endswith ".c" file_path = true ->
  os_path_exists file_path = true ->
  wsl_available g && wsl_gcc_available g = true ->
  exits_zero (run wsl_cmd) = true ->
  exists g',
    compile_c_file g = (g', Return tt)
    /\ process_entry g' = PyStr.slice_to_minus2 file_path
    /\ wsl_available g' = wsl_available g
    /\ wsl_valgrind_available g' = wsl_valgrind_available g
    /\ spawned g' = spawned g +++ [wsl_cmd].
Proof.
  intros file_path wsl_cmd He Hx Hflags Hzero.
  destruct (endswith_c_stem _ He) as [_ Ht].
  assert (Hguard : forall A (a b c d : M A),
             (if negb (PyStr.truthy file_path) then a
              else if negb (PyStr.endswith ".c" file_path) then b
              else if negb (os_path_exists file_path) then c else d) = d).
  { intros. now rewrite Ht, He, Hx. }
  remember (compile_c_file g) as res eqn:Hres.
  unfold compile_c_file in Hres.
  unfold bind at 1, process_entry_get, gets in Hres.
  fold file_path in Hres. rewrite Hguard in Hres. step_in Hres.
  match type of Hres with
  | context [(if _ then _ else _) ?h] => set (g1 := h) in Hres
  end.
  rewrite Hflags in Hres. cbv beta iota in Hres.
  destruct (compile_with_wsl_gcc_run file_path g1)
    as (gw & Hw & Hw_spawned & _ & Hw_entry & _).
  pose proof (compile_with_wsl_gcc_frame file_path g1) as Hframe.
  fold wsl_cmd in Hw, Hw_spawned, Hw_entry.
  rewrite Hw in Hframe, Hres. rewrite Hzero in Hw_entry.
  destruct (run wsl_cmd) as [c|e]; [|discriminate Hzero].
  cbn [exits_zero] in Hzero. rewrite Hzero in Hres. step_in Hres.
  destruct Hframe as (Hwsl & _ & Hvalgrind & _). cbn [fst] in Hwsl, Hvalgrind.
  exists gw. subst res. repeat split; assumption.
Qed.

(** The first process an analysis spawns is the chosen checker. *)
Lemma analysis_first_process (g : GUI) :
  let executable_path := PyStr.strip (process_entry g) in
  executable_path <> "" ->
  os_path_exists executable_path = true ->
  exists rest,
    spawned (fst (analyze_memory g))
    = spawned g +++ chosen_checker g executable_path :: rest.
Proof.
  intros executable_path Hne Hx.
  set (g1 := set_text_area (text_area g +++ analysis_banner executable_path)
               (set_status_var "Analyzing memory..." g)).
  destruct (try_valgrind_result executable_path g1)
    as (g2 & Htry & Hspawned & _).
  change (chosen_checker g1 executable_path)
    with (chosen_checker g executable_path) in *.
  change (spawned g1) with (spawned g) in *.
  rewrite (analyze_memory_cascade g g2 _ Hne Hx Htry).
  fold executable_path.
  destruct (completes (run (chosen_checker g executable_path))).
  - exists []. exact Hspawned.
  - exists [basic_cmd executable_path].
    rewrite basic_analysis_spawned, Hspawned, <- app_assoc. reflexivity.
Qed.


End World.

(** * From a compile to the analysis that follows

    The two actions meet two worlds: the file system and the tools may
    have changed in between. *)

Section CompileThenAnalyze.

Variables run_before run_after : invocation -> run_result.
Variables exists_before exists_after : string -> bool.
Variable basename : string -> string.
Variable platform : string.

(** After a successful compile through WSL of an existing source "p.c",
    where "p" is not empty and does not end in white space, and the path
    holds no colon or has four characters at least, the entry holds "p";
    an analysis that follows, with valgrind available through WSL and "p"
    existing, runs as its first process valgrind through WSL on the very
    path that gcc was given after "-o". *)
Theorem compile_then_analyze_same_file (g : GUI) :
  let file_path := PyStr.strip (process_entry g) in
  let stem := PyStr.slice_to_minus2 file_path in
  let wsl_exe := PyStr.slice_to_minus2 (wsl_path_of file_path) in
  let wsl_cmd := wsl_compile_cmd wsl_exe (wsl_path_of file_path) in
  let g' := fst (compile_c_file run_before exists_before basename platform g) in
  PyStr.endswith ".c" file_path = true ->
  exists_before file_path = true ->
  wsl_available g && wsl_gcc_available g = true ->
  wsl_valgrind_available g = true ->
  exits_zero (run_before wsl_cmd) = true ->
  PyStr.str_in ":" file_path = false \/ (4 <= String.length file_path)%nat ->
  stem <> "" ->
  PyStr.strip stem = stem ->
  exists_after stem = true ->
  args wsl_cmd = ["wsl"; "gcc"; "-g"; "-o"; wsl_exe; wsl_path_of file_path]
  /\ spawned g' = spawned g +++ [wsl_cmd]
  /\ process_entry g' = stem
  /\ exists rest,
       spawned (fst (analyze_memory run_after exists_after basename g'))
       = spawned g' +++ wsl_valgrind_cmd wsl_exe :: rest.
Proof.
  intros file_path stem wsl_exe wsl_cmd g' He Hx Hflags Hvalgrind Hzero
    Hshape Hne Hstrip Hx2.
  destruct (compile_through_wsl_state run_before exists_before basename platform g
              He Hx Hflags Hzero)
    as (gc & Hc & Hentry & Hwsl & Hval & Hspawned).
  fold file_path in Hentry. fold stem in Hentry.
  subst g'. rewrite Hc. cbn [fst].
  split; [reflexivity|]. split; [exact Hspawned|]. split; [exact Hentry|].
  assert (Hpath : PyStr.strip (process_entry gc) = stem)
    by (now rewrite Hentry).
  destruct (analysis_first_process run_after exists_after basename gc) as [rest Hrest].
  - now rewrite Hpath.
  - now rewrite Hpath.
  - exists rest. rewrite Hrest, Hpath. unfold chosen_checker.
    apply andb_prop in Hflags as [Hwa _].
    rewrite Hwsl, Hval, Hwa, Hvalgrind. cbn [andb].
    unfold stem, wsl_exe.
    now rewrite (wsl_exe_is_translated_stem file_path He Hshape).
Qed.

End CompileThenAnalyze.

(** * Instances *)

Lemma C3_drive_path_translation_witness :
  is_drive_letter "C" = true
  /\ _windows_path_to_wsl "C:\a\b.c" = Return "/mnt/c/a/b.c".
Proof.
  split; [reflexivity|].
  exact (proj1 (C3_drive_path_translation "C" "\a\b.c" eq_refl)).
Defined.

Lemma C5_compile_guard_witness :
  never_exists (PyStr.strip "missing.c") = false
  /\ spawned (fst (compile_c_file world_all_zero never_exists whole_path
                     "Windows" (fresh_gui "missing.c" true true true))) = []
  /\ status_var (fst (compile_c_file world_all_zero never_exists whole_path
                        "Windows" (fresh_gui "missing.c" true true true)))
     = "Ready".
Proof.
  split; [reflexivity|].
  destruct (C5_compile_guard world_all_zero never_exists whole_path "Windows"
              (fresh_gui "missing.c" true true true)
              (or_intror (or_intror eq_refl)))
    as (d & _ & Hspawned & Hstatus & _).
  split; [exact Hspawned | exact Hstatus].
Defined.

Lemma C6_probe_not_available_witness :
  probe_fails (world_nothing_installed gcc_version) = true
  /\ _check_windows_gcc world_nothing_installed (fresh_gui "" false false false)
     = (set_tools_status ["✗ GCC compiler not found (Windows)"]
          (set_spawned [gcc_version] (fresh_gui "" false false false)),
        Return tt).
Proof.
  split; [reflexivity|].
  exact (proj1 (C6_probe_not_available world_nothing_installed)
           gcc_version _ _ (or_introl eq_refl) eq_refl
           (fresh_gui "" false false false)).
Defined.

Lemma C7_compile_success_witness :
  process_entry (fst (compile_c_file world_all_zero always_exists whole_path
                        "Windows" (fresh_gui "C:\src\leak.c" true true false)))
  = "C:\src\leak"
  /\ process_entry (fst (compile_c_file world_all_zero always_exists whole_path
                           "Windows"
                           (fresh_gui "C:\src\leak.c" false false false)))
     = "C:\src\leak.exe"
  /\ process_entry (fst (compile_c_file world_all_zero always_exists whole_path
                           "Linux"
                           (fresh_gui "/home/u/leak.c" false false false)))
     = "/home/u/leak".
Proof.
  split; [|split].
  - destruct (C7_compile_success world_all_zero always_exists whole_path
                "Windows" (fresh_gui "C:\src\leak.c" true true false)
                eq_refl eq_refl) as (_ & Hwsl & _).
    exact (proj1 (proj2 (Hwsl eq_refl eq_refl))).
  - destruct (C7_compile_success world_all_zero always_exists whole_path
                "Windows" (fresh_gui "C:\src\leak.c" false false false)
                eq_refl eq_refl) as (_ & _ & Hnative).
    exact (proj1 (proj2 (Hnative (or_introl eq_refl) eq_refl))).
  - destruct (C7_compile_success world_all_zero always_exists whole_path
                "Linux" (fresh_gui "/home/u/leak.c" false false false)
                eq_refl eq_refl) as (_ & _ & Hnative).
    exact (proj1 (proj2 (Hnative (or_introl eq_refl) eq_refl))).
Defined.

Lemma C9_basic_fallback_witness :
  spawned (fst (analyze_memory world_no_checker always_exists whole_path
                  (fresh_gui "prog.exe" false false false)))
  = [native_valgrind_cmd "prog.exe"; basic_cmd "prog.exe"]
  /\ status_var (fst (analyze_memory world_no_checker always_exists whole_path
                        (fresh_gui "prog.exe" false false false)))
     = "Basic analysis complete (no leak detection)".
Proof.
  assert (Hne : PyStr.strip "prog.exe" <> "") by discriminate.
  destruct (C9_basic_fallback world_no_checker always_exists whole_path
              (fresh_gui "prog.exe" false false false)
              (FileNotFoundError "No such file or directory")
              Hne eq_refl eq_refl eq_refl)
    as (_ & _ & _ & Hspawned & Hstatus & _).
  split; [exact Hspawned | exact Hstatus].
Defined.

Lemma C10_exit_status_ignored_witness :
  world_checker_exits_one (wsl_valgrind_cmd (wsl_path_of "C:\a\prog"))
  = exits 1 "" "LEAK SUMMARY"
  /\ snd (_run_wsl_valgrind world_checker_exits_one "C:\a\prog"
            (fresh_gui "C:\a\prog" true false true))
     = Return true.
Proof.
  split; [reflexivity|].
  destruct (C10_exit_status_ignored world_checker_exits_one "C:\a\prog"
              1 "" "LEAK SUMMARY" (fresh_gui "C:\a\prog" true false true))
    as (report & _ & _ & _ & Hwsl & _).
  rewrite (Hwsl eq_refl). reflexivity.
Defined.

Lemma C4_secondary_checker_cascade_witness :
  spawned (fst (analyze_memory world_wsl_checker_breaks always_exists
                  whole_path (fresh_gui "prog" true false true)))
  = [wsl_valgrind_cmd "prog"; basic_cmd "prog"].
Proof.
  assert (Hne : PyStr.strip "prog" <> "") by discriminate.
  destruct (C4_secondary_checker_cascade world_wsl_checker_breaks
              always_exists whole_path (fresh_gui "prog" true false true)
              Hne eq_refl eq_refl)
    as (_ & _ & H).
  exact (proj2 (proj2 H)).
Defined.

(** * Where the specification and the code part *)

(** C2 as stated: the header "LEAK SUMMARY" is in the text, and none of
    the five fields is written; the table holds its heading only. *)
Lemma C2_header_without_fields :
  (exists before after,
      "LEAK SUMMARY" = before ++ leak_summary_header ++ after)
  /\ Forall (fun pl => re_search (fst pl) "LEAK SUMMARY" = None) leak_patterns
  /\ Forall (fun pl =>
               fst (show_leak_pattern "LEAK SUMMARY" pl
                      (fresh_gui "" false false false))
               = fresh_gui "" false false false) leak_patterns
  /\ text_area (fst (show_leak_summary "LEAK SUMMARY"
                       (fresh_gui "" false false false)))
     = leak_summary_heading.
Proof.
  split; [now exists "", ""|].
  split; [repeat constructor|].
  split; [repeat constructor | reflexivity].
Qed.

(** C3 as stated: each of these two paths holds the drive letter C
    followed by ':', and neither is rewritten to "/mnt/c/...".  In the
    first the drive letter is not the first character, which is the one
    the code takes; in the second no separator follows the colon, and the
    code inserts none. *)
Lemma C3_drive_letter_elsewhere :
  is_drive_letter "C" = true
  /\ (exists before after, "\\?\C:\a\b.c" = before ++ "C:" ++ after)
  /\ _windows_path_to_wsl "\\?\C:\a\b.c" = Return "/mnt//?/C:/a/b.c"
  /\ PyStr.startswith "/mnt/c/" "/mnt//?/C:/a/b.c" = false
  /\ (exists before after, "C:foo.c" = before ++ "C:" ++ after)
  /\ _windows_path_to_wsl "C:foo.c" = Return "/mnt/cfoo.c"
  /\ PyStr.startswith "/mnt/c/" "/mnt/cfoo.c" = false.
Proof.
  split; [reflexivity|].
  split; [now exists "\\?\", "\a\b.c"|].
  split; [reflexivity|]. split; [reflexivity|].
  split; [now exists "", "foo.c"|].
  split; reflexivity.
Qed.

(** C4 as stated: the checker through WSL fails with an error that is not
    a timeout, the native checker would have run, and the analysis goes to
    the basic analysis without trying it. *)
Lemma C4_native_checker_not_tried :
  wsl_available (fresh_gui "prog" true false true)
    && wsl_valgrind_available (fresh_gui "prog" true false true) = true
  /\ world_wsl_checker_breaks (wsl_valgrind_cmd (wsl_path_of "prog"))
     = Raises (OtherException "boom")
  /\ exits_zero (world_wsl_checker_breaks (native_valgrind_cmd "prog")) = true
  /\ spawned (fst (analyze_memory world_wsl_checker_breaks always_exists
                     whole_path (fresh_gui "prog" true false true)))
     = [wsl_valgrind_cmd "prog"; basic_cmd "prog"]
  /\ ~ In (native_valgrind_cmd "prog")
          (spawned (fst (analyze_memory world_wsl_checker_breaks always_exists
                           whole_path (fresh_gui "prog" true false true))))
  /\ status_var (fst (analyze_memory world_wsl_checker_breaks always_exists
                        whole_path (fresh_gui "prog" true false true)))
     = "Basic analysis complete (no leak detection)".
Proof.
  assert (Hspawned :
            spawned (fst (analyze_memory world_wsl_checker_breaks always_exists
                            whole_path (fresh_gui "prog" true false true)))
            = [wsl_valgrind_cmd "prog"; basic_cmd "prog"])
    by (vm_compute; reflexivity).
  repeat split; try reflexivity; try exact Hspawned.
  rewrite Hspawned. simpl. intros [H|[H|[]]]; discriminate H.
Qed.

(** * Examples *)

Example str_in_example : PyStr.str_in "LEAK" "== LEAK SUMMARY" = true.
Proof. reflexivity. Qed.

Example strip_example : PyStr.strip "  a b.c  " = "a b.c".
Proof. reflexivity. Qed.

Example split_example : PyStr.split ":" "a: b:c" = ["a"; " b"; "c"].
Proof. reflexivity. Qed.

Example str_of_int_example :
  PyStr.str_of_int 0 = "0" /\ PyStr.str_of_int (-11) = "-11"
  /\ PyStr.str_of_int 139 = "139".
Proof. repeat split; reflexivity. Qed.

Example slice_example :
  PyStr.slice_to_minus2 "a.c" = "a" /\ PyStr.slice_to_minus2 "c" = "".
Proof. split; reflexivity. Qed.

Example lower_example :
  PyStr.lower "C" = "c"%char /\ PyStr.lower "z" = "z"%char
  /\ PyStr.lower "["%char = "["%char.
Proof. repeat split; reflexivity. Qed.

(** [.*] is greedy and stays on its line. *)
Example search_greedy :
  Re.search "lost: " " blocks" "x lost: 1 blocks in 2 blocks y"
  = Some "lost: 1 blocks in 2 blocks".
Proof. reflexivity. Qed.

Example search_one_line :
  Re.search "lost: " " blocks" ("lost: 1" ++ nl ++ " blocks") = None.
Proof. reflexivity. Qed.

(** A path without a colon only has its backslashes turned. *)
Example relative_path_translation :
  _windows_path_to_wsl "src\leak.c" = Return "src/leak.c".
Proof. reflexivity. Qed.

(** The line "definitely lost: 40 bytes in 2 blocks" under the header
    "LEAK SUMMARY" gives the row "Definitely lost: 40 bytes in 2 blocks". *)
Example definitely_lost_row :
  text_area
    (fst (show_leak_summary
            ("==7== LEAK SUMMARY:" ++ nl
               ++ "==7==    definitely lost: 40 bytes in 2 blocks" ++ nl)
            (fresh_gui "" false false false)))
  = leak_summary_heading
      +++ [ "  Definitely lost: 40 bytes in 2 blocks" ++ nl ].
Proof. vm_compute. reflexivity. Qed.

(** The usage line is the first match of the pattern. *)
Example memory_usage_line :
  text_area
    (fst (show_memory_usage
            "==7==   total heap usage: 2 allocs, 0 frees, 40 bytes allocated"
            (fresh_gui "" false false false)))
  = [ "Memory usage: total heap usage: 2 allocs, 0 frees, 40 bytes allocated"
        ++ nl ].
Proof. vm_compute. reflexivity. Qed.

(** With nothing installed, [check_tools] lists three missing tools and
    leaves every flag off. *)
Example check_tools_nothing_installed :
  tools_status (fst (check_tools world_nothing_installed
                       (fresh_gui "" true true true)))
  = [ "✗ GCC compiler not found (Windows)";
      "✗ Valgrind not available (Windows)";
      "✗ WSL not available" ]
  /\ wsl_available (fst (check_tools world_nothing_installed
                           (fresh_gui "" true true true))) = false
  /\ wsl_valgrind_available (fst (check_tools world_nothing_installed
                                    (fresh_gui "" true true true))) = false.
Proof. vm_compute. repeat split; reflexivity. Qed.

(** When the colon is not the second character, the first character is
    still taken for the drive and the second is dropped. *)
Example extended_path_translation :
  _windows_path_to_wsl "\\?\C:\a\b.c" = Return "/mnt//?/C:/a/b.c".
Proof. reflexivity. Qed.


(** * Instances of the further properties *)

Lemma check_tools_flags_exact_witness :
  wsl_gcc_available
    (fst (check_tools world_wsl_without_valgrind
            (fresh_gui "" false false false))) = true
  /\ wsl_valgrind_available
       (fst (check_tools world_wsl_without_valgrind
               (fresh_gui "" false false false))) = false.
Proof.
  assert (H : Forall (fun inv => uncaught (world_wsl_without_valgrind inv) = None)
                [gcc_version; valgrind_version; wsl_status; wsl_gcc_version;
                 wsl_valgrind_version])
    by (repeat constructor).
  destruct (check_tools_flags_exact world_wsl_without_valgrind
              (fresh_gui "" false false false) H)
    as (_ & _ & Hgcc & Hvalgrind & _).
  split; [exact Hgcc | exact Hvalgrind].
Defined.

Lemma setup_instructions_shown_witness :
  exists lines,
    text_area (fst (check_tools world_wsl_without_valgrind
                      (fresh_gui "" false false false)))
    = [ rule "=" ++ nl; "TOOL STATUS" ++ nl; rule "=" ++ nl ]
        +++ map (fun status => status ++ nl) lines
        +++ setup_instructions
        +++ [ nl ++ rule "=" ++ nl ++ nl ]
    /\ List.length lines = 5%nat.
Proof.
  assert (H : Forall (fun inv => uncaught (world_wsl_without_valgrind inv) = None)
                [gcc_version; valgrind_version; wsl_status; wsl_gcc_version;
                 wsl_valgrind_version])
    by (repeat constructor).
  destruct (setup_instructions_shown world_wsl_without_valgrind
              (fresh_gui "" false false false) H)
    as (lines & Htext & _ & Hlen).
  exists lines. split; [exact Htext | exact Hlen].
Defined.

Lemma check_tools_raises_silently_witness :
  snd (check_tools world_probe_breaks (fresh_gui "" false false false))
  = Raise (OtherException "Access is denied")
  /\ text_area (fst (check_tools world_probe_breaks
                       (fresh_gui "" false false false))) = [].
Proof.
  split; [reflexivity|].
  exact (proj1 (check_tools_raises_silently world_probe_breaks
                  (fresh_gui "" false false false)
                  (OtherException "Access is denied") eq_refl)).
Defined.

Lemma analyze_memory_guard_witness :
  exists d,
    analyze_memory world_all_zero never_exists whole_path
      (fresh_gui "prog.exe" true true true)
    = (set_dialogs [d] (fresh_gui "prog.exe" true true true), Return tt)
    /\ message d = "File not found: prog.exe".
Proof.
  destruct (analyze_memory_guard world_all_zero never_exists whole_path
              (fresh_gui "prog.exe" true true true) (or_intror eq_refl))
    as (d & Hrun & _ & [[Hempty _] | [_ Hmsg]]).
  - discriminate Hempty.
  - exists d. split; [exact Hrun | exact Hmsg].
Defined.

Lemma analyze_memory_outcomes_witness :
  spawned (fst (analyze_memory world_no_checker always_exists whole_path
                  (fresh_gui "prog.exe" true true false)))
  = [native_valgrind_cmd "prog.exe"; basic_cmd "prog.exe"]
  /\ status_var (fst (analyze_memory world_no_checker always_exists whole_path
                        (fresh_gui "prog.exe" true true false)))
     = "Basic analysis complete (no leak detection)".
Proof.
  assert (Hne : PyStr.strip "prog.exe" <> "") by discriminate.
  destruct (analyze_memory_outcomes world_no_checker always_exists whole_path
              (fresh_gui "prog.exe" true true false) Hne eq_refl)
    as (_ & Hspawned & _ & Hstatus).
  split; [exact Hspawned | exact Hstatus].
Defined.

Lemma compile_c_file_outcomes_witness :
  spawned (fst (compile_c_file world_wsl_gcc_times_out always_exists
                  whole_path "Windows"
                  (fresh_gui "C:\src\leak.c" true true true)))
  = [wsl_compile_cmd "/mnt/c/src/leak" "/mnt/c/src/leak.c"]
  /\ process_entry (fst (compile_c_file world_wsl_gcc_times_out always_exists
                           whole_path "Windows"
                           (fresh_gui "C:\src\leak.c" true true true)))
     = "C:\src\leak.c"
  /\ status_var (fst (compile_c_file world_wsl_gcc_times_out always_exists
                        whole_path "Windows"
                        (fresh_gui "C:\src\leak.c" true true true)))
     = "Compilation error".
Proof.
  destruct (compile_c_file_outcomes world_wsl_gcc_times_out always_exists
              whole_path "Windows" (fresh_gui "C:\src\leak.c" true true true)
              eq_refl eq_refl)
    as (Hspawned & Hentry & Hstatus & _).
  split; [exact Hspawned | split; [exact Hentry | exact Hstatus]].
Defined.

Lemma leak_field_value_witness :
  exists value,
    writes (show_leak_pattern
              "==7==    definitely lost: 40 bytes in 2 blocks"
              ({| lit_before := "definitely lost: "; lit_after := " blocks" |},
               "Definitely lost"))
      [ "  Definitely lost: " ++ value ++ nl ] tt
    /\ string_forall plain_char value = true.
Proof.
  destruct (leak_field_value
              "==7==    definitely lost: 40 bytes in 2 blocks"
              ({| lit_before := "definitely lost: "; lit_after := " blocks" |},
               "Definitely lost")
              "definitely lost: 40 bytes in 2 blocks"
              (or_introl eq_refl) eq_refl)
    as (body & value & _ & _ & _ & Hw & Hplain & _).
  exists value. split; [exact Hw | exact Hplain].
Defined.

(** A second colon on the matched line cuts the value short. *)
Example leak_value_cut_at_colon :
  text_area
    (fst (show_leak_pattern "definitely lost: 1:2 blocks"
            ({| lit_before := "definitely lost: "; lit_after := " blocks" |},
             "Definitely lost")
            (fresh_gui "" false false false)))
  = [ "  Definitely lost: 1" ++ nl ].
Proof. vm_compute. reflexivity. Qed.

(** A compile through WSL that exits with 1 is followed by the native
    compile. *)
Example compile_falls_back_to_native :
  spawned
    (fst (compile_c_file
            (world_of [ (wsl_compile_cmd "/mnt/c/src/leak"
                           "/mnt/c/src/leak.c",
                         exits 1 "" "leak.c:3: error") ]
               (exits 0 "" ""))
            always_exists whole_path "Windows"
            (fresh_gui "C:\src\leak.c" true true true)))
  = [ wsl_compile_cmd "/mnt/c/src/leak" "/mnt/c/src/leak.c";
      windows_compile_cmd "C:\src\leak.exe" "C:\src\leak.c" ].
Proof. vm_compute. reflexivity. Qed.

(** Browsing replaces the entry; a cancelled dialog leaves it. *)
Example browse_file_example :
  process_entry (fst (browse_file "D:\x.c" (fresh_gui "old" false false false)))
  = "D:\x.c"
  /\ process_entry (fst (browse_file "" (fresh_gui "old" false false false)))
     = "old".
Proof. split; reflexivity. Qed.

Lemma compile_then_analyze_same_file_witness :
  process_entry
    (fst (compile_c_file world_all_zero always_exists whole_path "Windows"
            (fresh_gui "C:\src\leak.c" true true true)))
  = "C:\src\leak"
  /\ exists rest,
      spawned
        (fst (analyze_memory world_no_checker always_exists whole_path
                (fst (compile_c_file world_all_zero always_exists whole_path
                        "Windows"
                        (fresh_gui "C:\src\leak.c" true true true)))))
      = [ wsl_compile_cmd "/mnt/c/src/leak" "/mnt/c/src/leak.c" ]
          +++ wsl_valgrind_cmd "/mnt/c/src/leak" :: rest.
Proof.
  assert (Hne : PyStr.slice_to_minus2 (PyStr.strip "C:\src\leak.c") <> "")
    by discriminate.
  assert (Hlen : (4 <= String.length (PyStr.strip "C:\src\leak.c"))%nat)
    by (simpl; lia).
  destruct (compile_then_analyze_same_file world_all_zero world_no_checker
              always_exists always_exists whole_path "Windows"
              (fresh_gui "C:\src\leak.c" true true true)
              eq_refl eq_refl eq_refl eq_refl eq_refl (or_intror Hlen)
              Hne eq_refl eq_refl)
    as (_ & Hspawned & Hentry & rest & Hrest).
  split; [exact Hentry|].
  exists rest. rewrite Hrest, Hspawned. reflexivity.
Defined.

(** When the name ends in white space before ".c", gcc writes to the path
    with the space and the analysis, which strips the entry, looks for the
    path without it. *)
Example stem_ending_in_space :
  args (wsl_compile_cmd
          (PyStr.slice_to_minus2 (wsl_path_of "C:\a\x .c"))
          (wsl_path_of "C:\a\x .c"))
  = ["wsl"; "gcc"; "-g"; "-o"; "/mnt/c/a/x "; "/mnt/c/a/x .c"]
  /\ chosen_checker (fresh_gui "C:\a\x " true true true)
       (PyStr.strip "C:\a\x ")
     = wsl_valgrind_cmd "/mnt/c/a/x".
Proof. split; reflexivity. Qed.
